(** * Market research agent: a shallow embedding of [app.py]

    The development follows the source file top to bottom:
    - [PyStr]: Python [str] values as sequences of Unicode code points, with
      the few interpreter primitives the program relies on ([str.strip],
      [str.replace], the regular-expression class [\d], [int], the [,]
      format specifier);
    - [Normalizer]: [clean_name] and [extract_price];
    - section [Gateway]: [tavily_search] and [market_research], written in a
      small state-and-exception monad over the external provider;
    - [Renderer]: [generate_pdf]. *)

From Stdlib Require Import ZArith NArith List String Ascii Lia Bool.
From Stdlib Require Import DecimalNat DecimalN.
From stdpp Require Import base list.

Local Open Scope Z_scope.

(* ===================================================================== *)
(** ** Python strings *)

Module PyStr.

(** A character is a Unicode code point; a [str] is a sequence of them, so
    that slicing and [len] count code points as the interpreter does. *)
Definition char : Type := N.
Definition pystr : Type := list char.

(** String literals of the source that are plain ASCII. *)
Definition lit (s : string) : pystr :=
  map N_of_ascii (list_ascii_of_string s).

Definition char_eqb (a b : char) : bool := N.eqb a b.

(** [str.isspace] per character: the code points [str.strip()] removes. *)
Definition whitespace : list char :=
  [ 0x09; 0x0A; 0x0B; 0x0C; 0x0D; 0x1C; 0x1D; 0x1E; 0x1F; 0x20; 0x85; 0xA0;
    0x1680; 0x2000; 0x2001; 0x2002; 0x2003; 0x2004; 0x2005; 0x2006; 0x2007;
    0x2008; 0x2009; 0x200A; 0x2028; 0x2029; 0x202F; 0x205F; 0x3000 ]%N.

Definition is_space (c : char) : bool := existsb (char_eqb c) whitespace.

Fixpoint take_while {A} (p : A -> bool) (l : list A) : list A :=
  match l with
  | [] => []
  | x :: r => if p x then x :: take_while p r else []
  end.

Fixpoint drop_while {A} (p : A -> bool) (l : list A) : list A :=
  match l with
  | [] => []
  | x :: r => if p x then drop_while p r else l
  end.

(** [s.lstrip()], [s.rstrip()] and [s.strip()] without argument. *)
Definition lstrip (s : pystr) : pystr := drop_while is_space s.
Definition rstrip (s : pystr) : pystr := rev (drop_while is_space (rev s)).
Definition strip (s : pystr) : pystr := rstrip (lstrip s).

(** [s.replace(old, "")] for a one-character [old]. *)
Definition remove_char (old : char) (s : pystr) : pystr :=
  List.filter (fun c => negb (char_eqb c old)) s.

(** The code points of general category Nd come in runs of ten, digit zero
    first.  This is the list of the zeros (Unicode 14.0, the database of
    CPython 3.11); [\d] in a [str] pattern matches exactly the characters of
    these runs, and [int] reads each of them as its decimal value. *)
Definition decimal_zeros : list char :=
  [ 0x30; 0x660; 0x6F0; 0x7C0; 0x966; 0x9E6; 0xA66; 0xAE6; 0xB66; 0xBE6;
    0xC66; 0xCE6; 0xD66; 0xDE6; 0xE50; 0xED0; 0xF20; 0x1040; 0x1090; 0x17E0;
    0x1810; 0x1946; 0x19D0; 0x1A80; 0x1A90; 0x1B50; 0x1BB0; 0x1C40; 0x1C50;
    0xA620; 0xA8D0; 0xA900; 0xA9D0; 0xA9F0; 0xAA50; 0xABF0; 0xFF10; 0x104A0;
    0x10D30; 0x11066; 0x110F0; 0x11136; 0x111D0; 0x112F0; 0x11450; 0x114D0;
    0x11650; 0x116C0; 0x11730; 0x118E0; 0x11950; 0x11C50; 0x11D50; 0x11DA0;
    0x16A60; 0x16AC0; 0x16B50; 0x1D7CE; 0x1D7D8; 0x1D7E2; 0x1D7EC; 0x1D7F6;
    0x1E140; 0x1E2F0; 0x1E950; 0x1FBF0 ]%N.

Definition in_run (c zero : char) : bool :=
  (N.leb zero c && N.ltb c (zero + 10))%N.

(** The decimal value of a character, when it is a decimal digit. *)
Definition decimal_value (c : char) : option Z :=
  match find (in_run c) decimal_zeros with
  | Some zero => Some (Z.of_N (c - zero))
  | None => None
  end.

Definition is_digit (c : char) : bool :=
  match decimal_value c with Some _ => true | None => false end.

(** [int(s)] on a string of decimal digits (the only strings the program
    passes to [int]); a non-digit counts as zero, which never arises. *)
Definition py_int (s : pystr) : Z :=
  fold_left (fun acc c => 10 * acc + default 0 (decimal_value c)) s 0.

(** The ASCII numeral of a natural number, most significant digit first. *)
Fixpoint uint_chars (d : Decimal.uint) : pystr :=
  match d with
  | Decimal.Nil => []
  | Decimal.D0 r => 0x30%N :: uint_chars r
  | Decimal.D1 r => 0x31%N :: uint_chars r
  | Decimal.D2 r => 0x32%N :: uint_chars r
  | Decimal.D3 r => 0x33%N :: uint_chars r
  | Decimal.D4 r => 0x34%N :: uint_chars r
  | Decimal.D5 r => 0x35%N :: uint_chars r
  | Decimal.D6 r => 0x36%N :: uint_chars r
  | Decimal.D7 r => 0x37%N :: uint_chars r
  | Decimal.D8 r => 0x38%N :: uint_chars r
  | Decimal.D9 r => 0x39%N :: uint_chars r
  end.

Definition numeral (n : N) : pystr := uint_chars (N.to_uint n).

(** [str(n)] for an integer. *)
Definition py_str_int (z : Z) : pystr :=
  if z <? 0 then 0x2D%N :: numeral (Z.abs_N z) else numeral (Z.abs_N z).

(** Grouping for the [,] format option: a comma before every block of
    three digits counted from the right.  [group3] works on the reversed
    numeral. *)
Fixpoint group3 (fuel : nat) (r : pystr) : pystr :=
  match fuel with
  | O => r
  | S fuel' =>
      match r with
      | a :: b :: c :: (_ :: _) as rest =>
          a :: b :: c :: 0x2C%N :: group3 fuel' rest
      | _ => r
      end
  end.

Definition with_commas (digits : pystr) : pystr :=
  rev (group3 (length digits) (rev digits)).

(** [format(z, ",")], as used by [f"{z:,}"]. *)
Definition format_thousands (z : Z) : pystr :=
  if z <? 0 then 0x2D%N :: with_commas (numeral (Z.abs_N z))
  else with_commas (numeral (Z.abs_N z)).

End PyStr.

Import PyStr.

(* ===================================================================== *)
(** ** Text normalizer: [clean_name], [extract_price] *)

Module Normalizer.

(** The alternation [\||-|:] matches exactly one of three characters. *)
Definition is_sep (c : char) : bool :=
  char_eqb c 0x7C%N || char_eqb c 0x2D%N || char_eqb c 0x3A%N.

(** [re.split(r"\||-|:", text)]: the segments between separators; a text
    with [k] separators gives [k + 1] segments, some possibly empty. *)
Fixpoint re_split (text : pystr) : list pystr :=
  match text with
  | [] => [[]]
  | c :: rest =>
      if is_sep c then [] :: re_split rest
      else match re_split rest with
           | seg :: segs => (c :: seg) :: segs
           | [] => [[c]]
           end
  end.

(** [re.split(...)[0].strip()]; indexing is [list.__getitem__], written
    with a default that the first lemma below shows is never used. *)
Definition clean_name (text : pystr) : pystr :=
  strip (default [] (re_split text !! 0%nat)).

(** Greedy [\d{0,n}] at the start of [s]. *)
Fixpoint leading_digits (n : nat) (s : pystr) : pystr :=
  match n, s with
  | S n', c :: r => if is_digit c then c :: leading_digits n' r else []
  | _, _ => []
  end.

(** [re.search(r"(\d{2,6})", s)]: the scan tries each start position from
    the left; at a position the quantifier is greedy and nothing follows
    it, so the match there is the longest one.  The result is group 1. *)
Fixpoint re_search_price (s : pystr) : option pystr :=
  match s with
  | [] => None
  | _ :: r =>
      let m := leading_digits 6 s in
      if (2 <=? length m)%nat then Some m else re_search_price r
  end.

Definition extract_price (text : pystr) : option Z :=
  match re_search_price (remove_char 0x2C%N text) with
  | Some group1 => Some (py_int group1)
  | None => None
  end.

End Normalizer.

Import Normalizer.

(* ===================================================================== *)
(** ** Data model *)

(** One item of the provider's [results] list: a dictionary, of which the
    program reads two keys; [None] stands for a key that is not there. *)
Record SearchResult : Type := mkResult {
  title : option pystr;
  content : option pystr
}.

(** What the body of the [try] in [tavily_search] can do: the client
    returns a dictionary, with or without a ["results"] entry, or raises an
    [Exception] [e], kept as [str(e)]. *)
Inductive response : Type :=
| Returns (results : option (list SearchResult))
| Raises (message : pystr).

Record CompetitorSummary : Type := mkSummary {
  name : pystr;
  features : list pystr;
  price : list pystr;
  reviews : list pystr;
  avg_price : option Z
}.

Record Report : Type := mkReport {
  competitors : list CompetitorSummary
}.

(** The exception the aggregator itself can raise: a subscript on a missing
    dictionary key. *)
Inductive exn : Type :=
| KeyError (key : pystr).

(** Field assignments on the [comp_data] dictionary. *)
Definition set_features (d : CompetitorSummary) (v : list pystr) :=
  mkSummary (name d) v (price d) (reviews d) (avg_price d).
Definition set_price (d : CompetitorSummary) (v : list pystr) :=
  mkSummary (name d) (features d) v (reviews d) (avg_price d).
Definition set_reviews (d : CompetitorSummary) (v : list pystr) :=
  mkSummary (name d) (features d) (price d) v (avg_price d).
Definition set_avg_price (d : CompetitorSummary) (v : option Z) :=
  mkSummary (name d) (features d) (price d) (reviews d) v.

(** Truth value of [None] and of an [int]. *)
Definition truthy (p : option Z) : bool :=
  match p with
  | Some v => negb (v =? 0)
  | None => false
  end.

(** [[p for p in extracted_prices if p]]: what is kept is an [int]. *)
Fixpoint keep_truthy (l : list (option Z)) : list Z :=
  match l with
  | [] => []
  | Some v :: r => if truthy (Some v) then v :: keep_truthy r else keep_truthy r
  | None :: r => keep_truthy r
  end.

Definition sum (l : list Z) : Z := fold_left Z.add l 0.

(** The error sentinel of [tavily_search]. *)
Definition sentinel (message : pystr) : SearchResult :=
  mkResult (Some (lit "Error")) (Some message).

(* ===================================================================== *)
(** ** Search gateway and research aggregator *)

Declare Scope py_scope.
Delimit Scope py_scope with py.

Section Gateway.

(** The provider: an external service with a state of its own.  A call
    takes the query and the result bound and answers in the current
    state; nothing is assumed about how the answer depends on either. *)
Variable W : Type.
Variable client_search : pystr -> Z -> W -> response * W.

(** One entry of the record of provider calls. *)
Record Call : Type := mkCall {
  query : pystr;
  max_results : Z;
  reply : response
}.

(** The state a run threads: the provider and the calls made so far. *)
Record state : Type := mkState {
  world : W;
  calls : list Call
}.

Definition M (A : Type) : Type := state -> (exn + A) * state.

Definition ret {A} (a : A) : M A := fun s => (inr a, s).

Definition raise {A} (e : exn) : M A := fun s => (inl e, s).

Definition bind {A B} (c : M A) (k : A -> M B) : M B :=
  fun s =>
    match c s with
    | (inr a, s') => k a s'
    | (inl e, s') => (inl e, s')
    end.

Notation "'let!' x ':=' c 'in' k" := (bind c (fun x => k))
  (at level 10, x name, c at level 100, k at level 200) : py_scope.
Local Open Scope py_scope.

(** A list comprehension whose element expression can raise. *)
Fixpoint comprehension {A B} (f : A -> M B) (l : list A) : M (list B) :=
  match l with
  | [] => ret []
  | a :: r =>
      let! b := f a in
      let! bs := comprehension f r in
      ret (b :: bs)
  end.

(** [d[key]] on a result dictionary. *)
Definition getitem (key : string) (field : option pystr) : M pystr :=
  match field with
  | Some v => ret v
  | None => raise (KeyError (lit key))
  end.

(** [client.search(query=..., max_results=...)]. *)
Definition client_call (q : pystr) (n : Z) : M response :=
  fun s =>
    let answer := client_search q n (world s) in
    (inr (fst answer),
     mkState (snd answer) (calls s ++ [mkCall q n (fst answer)])).

Definition tavily_search (q : pystr) (n : Z) : M (list SearchResult) :=
  let! r := client_call q n in
  match r with
  | Returns results => ret (default [] results)
  | Raises message => ret [sentinel message]
  end.

(** [x["title"] + ": " + x["content"][:120]]. *)
Definition snippet (x : SearchResult) : M pystr :=
  let! t := getitem "title" (title x) in
  let! c := getitem "content" (content x) in
  ret (t ++ lit ": " ++ take 120 c).

Definition features_query (comp : pystr) : pystr :=
  comp ++ lit " smartwatch features 2025".
Definition price_query (comp : pystr) : pystr :=
  comp ++ lit " smartwatch price in Pakistan 2025 PKR".
Definition reviews_query (comp : pystr) : pystr :=
  comp ++ lit " smartwatch customer reviews 2025".
Definition competitors_query (product_name : pystr) : pystr :=
  lit "Top smartwatches competing with " ++ product_name ++ lit " in 2025".

(** The body of the loop over [competitors], up to the [append]. *)
Definition research_competitor (comp : pystr) : M CompetitorSummary :=
  let comp_data := mkSummary comp [] [] [] None in
  let! features := tavily_search (features_query comp) 5 in
  let! fs := comprehension snippet features in
  let comp_data := set_features comp_data fs in
  let! price_results := tavily_search (price_query comp) 5 in
  let! ps := comprehension snippet price_results in
  let comp_data := set_price comp_data ps in
  let extracted_prices :=
    map (fun p => extract_price (default [] (content p))) price_results in
  let extracted_prices := keep_truthy extracted_prices in
  let comp_data :=
    match extracted_prices with
    | [] => comp_data
    | _ :: _ =>
        set_avg_price comp_data
          (Some (sum extracted_prices / Z.of_nat (length extracted_prices)))
    end in
  let! reviews := tavily_search (reviews_query comp) 5 in
  let! rs := comprehension snippet reviews in
  let comp_data := set_reviews comp_data rs in
  ret comp_data.

(** [for comp in competitors: ...; report["competitors"].append(comp_data)]. *)
Fixpoint research_loop (comps : list pystr) (report : Report) : M Report :=
  match comps with
  | [] => ret report
  | comp :: rest =>
      let! comp_data := research_competitor comp in
      research_loop rest (mkReport (competitors report ++ [comp_data]))
  end.

(** [clean_name(item["title"])]. *)
Definition clean_title (item : SearchResult) : M pystr :=
  let! t := getitem "title" (title item) in
  ret (clean_name t).

Definition market_research (product_name : pystr) : M Report :=
  let! competitors_data := tavily_search (competitors_query product_name) 5 in
  let! comps := comprehension clean_title (take 3 competitors_data) in
  research_loop comps (mkReport []).

(** Issuing a list of queries one after the other, each in the state the
    previous one left. *)
Definition issue (qs : list pystr) (s : state) : state :=
  fold_left (fun s q => snd (client_call q 5 s)) qs s.

End Gateway.

Arguments mkState {W}.
Arguments world {W}.
Arguments calls {W}.
Arguments ret {W A}.
Arguments raise {W A}.
Arguments bind {W A B}.
Arguments comprehension {W A B}.
Arguments getitem {W}.
Arguments client_call {W}.
Arguments tavily_search {W}.
Arguments snippet {W}.
Arguments clean_title {W}.
Arguments research_competitor {W}.
Arguments research_loop {W}.
Arguments market_research {W}.
Arguments issue {W}.

(** The queries a run makes for one competitor, in the order of the loop
    body. *)
Definition sub_queries (comp : pystr) : list pystr :=
  [features_query comp; price_query comp; reviews_query comp].

(** The result list [tavily_search] hands back for a provider reply. *)
Definition results_of (r : response) : list SearchResult :=
  match r with
  | Returns results => default [] results
  | Raises message => [sentinel message]
  end.

(** A result carrying both keys the program subscripts. *)
Definition well_shaped (x : SearchResult) : Prop :=
  is_Some (title x) /\ is_Some (content x).

(* ===================================================================== *)
(** ** Report renderer *)

Module Renderer.

Inductive style : Type := Heading1 | Heading2 | Heading3 | Normal.

(** The two kinds of flowables the story is made of. *)
Inductive flowable : Type :=
| Paragraph (text : pystr) (sty : style)
| Spacer (width height : Z).

(** [story.append(x)]. *)
Definition append {A} (story : list A) (x : A) : list A := story ++ [x].

Definition bullet (s : pystr) : flowable :=
  Paragraph ([0x2022%N; 0x20%N] ++ s) Normal.

Definition title_text (product_name : pystr) : pystr :=
  [0x1F4CA%N] ++ lit " Market Analysis Report " ++ [0x2014%N; 0x20%N]
    ++ product_name.

Definition competitor_text (comp_name : pystr) : pystr :=
  [0x1F50E%N] ++ lit " Competitor: " ++ comp_name.

Definition price_text (v : Z) : pystr :=
  [0x1F4B0%N] ++ lit " Estimated Avg Price: PKR " ++ format_thousands v.

(** [for x in xs: story.append(Paragraph("• " + x, styles['Normal']))]. *)
Definition append_bullets (story : list flowable) (xs : list pystr) :=
  fold_left (fun story x => append story (bullet x)) xs story.

(** The body of the loop over [report["competitors"]]. *)
Definition render_competitor (story : list flowable) (comp : CompetitorSummary)
  : list flowable :=
  let story := append story (Paragraph (competitor_text (name comp)) Heading2) in
  let story :=
    match avg_price comp with
    | Some v =>
        if truthy (Some v) then append story (Paragraph (price_text v) Normal)
        else story
    | None => story
    end in
  let story := append story (Paragraph (lit "Key Features:") Heading3) in
  let story := append_bullets story (features comp) in
  let story := append story (Paragraph (lit "Prices:") Heading3) in
  let story := append_bullets story (price comp) in
  let story := append story (Paragraph (lit "Customer Reviews:") Heading3) in
  let story := append_bullets story (reviews comp) in
  append story (Spacer 1 12).

(** The story as it stands when [doc.build] is called. *)
Definition build_story (report : Report) (product_name : pystr)
  : list flowable :=
  let story := [] in
  let story := append story (Paragraph (title_text product_name) Heading1) in
  let story := append story (Spacer 1 12) in
  fold_left render_competitor (competitors report) story.

Section Build.

(** The document renderer is external: [doc.build(story)] writes bytes
    that may depend on more than the story (the renderer's own state,
    the clock). *)
Variable R : Type.
Variable doc_build : list flowable -> R -> list N * R.

(** The renderer's state, and the stories handed to it so far. *)
Record rstate : Type := mkRState {
  renderer : R;
  built : list (list flowable)
}.

(** Returns the buffer's bytes (the buffer is rewound before it is
    returned). *)
Definition generate_pdf (report : Report) (product_name : pystr)
    (s : rstate) : list N * rstate :=
  let story := build_story report product_name in
  let (buffer, r) := doc_build story (renderer s) in
  (buffer, mkRState r (built s ++ [story])).

End Build.

Arguments mkRState {R}.
Arguments renderer {R}.
Arguments built {R}.
Arguments generate_pdf {R}.

End Renderer.

Import Renderer.

(* ===================================================================== *)
(** ** Dashboard presenter *)

Module Dashboard.

Fixpoint pystr_eqb (a b : pystr) : bool :=
  match a, b with
  | [], [] => true
  | x :: a', y :: b' => char_eqb x y && pystr_eqb a' b'
  | _, _ => false
  end.

(** [s.replace(old, new)] for one-character [old] and [new]. *)
Definition replace_char (old new : char) (s : pystr) : pystr :=
  map (fun c => if char_eqb c old then new else c) s.

(** [d[k] = v] on a dictionary kept as its items in insertion order: a
    key that is there keeps its place and gets the new value, a new key
    goes to the end. *)
Fixpoint dict_set (d : list (pystr * Z)) (k : pystr) (v : Z)
  : list (pystr * Z) :=
  match d with
  | [] => [(k, v)]
  | (k', v') :: r =>
      if pystr_eqb k' k then (k', v) :: r else (k', v') :: dict_set r k v
  end.

Inductive chart : Type :=
| BarChart (xs : list pystr) (heights : list Z) (ylabel title : pystr)
| PieChart (values : list Z) (labels : list pystr) (autopct title : pystr).

(** What the page is made of, in the order the calls put it there. *)
Inductive widget : Type :=
| Success (text : pystr)
| Expander (label : pystr) (body : list widget)
| Caption (text : pystr)
| Subheader (text : pystr)
| WriteText (text : pystr)
| Pyplot (fig : chart)
| DownloadButton (label : pystr) (data : list N) (file_name mime : pystr).

(** [for x in xs: st.write("- " + x)]. *)
Definition write_items (body : list widget) (xs : list pystr) : list widget :=
  fold_left (fun body x => append body (WriteText (lit "- " ++ x))) xs body.

(** The block under [with st.expander(...)]: what it shows, and the
    [avg_prices] dictionary after it. *)
Definition expander_body (comp : CompetitorSummary)
    (avg_prices : list (pystr * Z)) : list widget * list (pystr * Z) :=
  let body := [] in
  let shown :=
    match avg_price comp with
    | Some v =>
        if truthy (Some v)
        then (append body (Caption (price_text v)),
              dict_set avg_prices (name comp) v)
        else (body, avg_prices)
    | None => (body, avg_prices)
    end in
  let body := fst shown in
  let avg_prices := snd shown in
  let body := append body (Subheader (lit "Key Features")) in
  let body := write_items body (features comp) in
  let body := append body (Subheader (lit "Price in PKR")) in
  let body := write_items body (price comp) in
  let body := append body (Subheader (lit "Customer Sentiment")) in
  let body := write_items body (reviews comp) in
  (body, avg_prices).

(** One pass through the loop over [report["competitors"]]. *)
Definition show_competitor (acc : list widget * list (pystr * Z))
    (comp : CompetitorSummary) : list widget * list (pystr * Z) :=
  let shown := expander_body comp (snd acc) in
  (append (fst acc) (Expander ([0x1F4CC%N; 0x20%N] ++ name comp) (fst shown)),
   snd shown).

Definition sentiment_chart : chart :=
  PieChart [60; 25; 15] [lit "Positive"; lit "Neutral"; lit "Negative"]
           (lit "%1.1f%%") (lit "Customer Sentiment Distribution").

(** The page from [st.success] to the sentiment chart. *)
Definition display (report : Report) (product_name : pystr) : list widget :=
  let page := [] in
  let page :=
    append page
      (Success ([0x2705%N] ++ lit " Market Research Completed for "
                  ++ product_name)) in
  let shown := fold_left show_competitor (competitors report) (page, []) in
  let page := fst shown in
  let avg_prices := snd shown in
  let page :=
    match avg_prices with
    | [] => page
    | _ :: _ =>
        let page :=
          append page
            (Subheader ([0x1F4CA%N] ++ lit " Price Comparison Chart")) in
        append page
          (Pyplot (BarChart (map fst avg_prices) (map snd avg_prices)
                     (lit "Price (PKR)")
                     (lit "Average Price Comparison of Competitors")))
    end in
  let page :=
    append page
      (Subheader ([0x1F9ED%N]
                    ++ lit " Customer Sentiment Overview (Example Data)")) in
  append page (Pyplot sentiment_chart).

(** [f"{product_name.replace(' ', '_')}_Market_Report.pdf"]. *)
Definition download_file_name (product_name : pystr) : pystr :=
  replace_char 0x20%N 0x5F%N product_name ++ lit "_Market_Report.pdf".

Section Run.

(** The provider and the document builder, both external. *)
Variable W : Type.
Variable client_search : pystr -> Z -> W -> response * W.
Variable R : Type.
Variable doc_build : list flowable -> R -> list N * R.

(** The block under [if st.button("Run Research")]: an exception of the
    aggregator ends it. *)
Definition run_research (product_name : pystr) (s : state W) (rs : rstate R)
  : (exn + list widget) * (state W * rstate R) :=
  let researched := market_research client_search product_name s in
  match fst researched with
  | inl e => (inl e, (snd researched, rs))
  | inr report =>
      let page := display report product_name in
      let pdf := generate_pdf doc_build report product_name rs in
      let page :=
        append page
          (DownloadButton ([0x1F4E5%N] ++ lit " Download Report as PDF")
             (fst pdf) (download_file_name product_name)
             (lit "application/pdf")) in
      (inr page, (snd researched, snd pdf))
  end.

End Run.

Arguments run_research {W} client_search {R} doc_build.

End Dashboard.

Import Dashboard.

(* ===================================================================== *)
(** ** Stub providers *)

(** Prepared replies of a stub provider: a result list given by the title
    and the content of each item, a dictionary without a ["results"] entry,
    or a failure with its message. *)
Inductive canned : Type :=
| Hit (items : list (string * string))
| Bare
| Failure (message : string).

Definition result (tc : string * string) : SearchResult :=
  mkResult (Some (lit (fst tc))) (Some (lit (snd tc))).

Definition reply_of (c : canned) : response :=
  match c with
  | Hit items => Returns (Some (map result items))
  | Bare => Returns None
  | Failure message => Raises (lit message)
  end.

(** A provider that answers from a queue of prepared replies, and with an
    empty result list once the queue is used up. *)
Definition scripted (q : pystr) (n : Z) (w : list canned)
  : response * list canned :=
  match w with
  | c :: rest => (reply_of c, rest)
  | [] => (Returns (Some []), [])
  end.

(** A provider that is down: every call raises. *)
Definition unreachable (q : pystr) (n : Z) (w : unit) : response * unit :=
  (Raises (lit "connection refused"), tt).

(** Replies for a run with three competitors, two of which get the same
    name; the fourth title is beyond the cap. *)
Definition fixture : list canned :=
  [ Hit [ ("Acme Watch X | Best Deals 2025", "a");
          ("Acme Watch X - Review", "b");
          ("Zenith Band: 2025 edition", "c");
          ("Fourth Watch", "d") ];
    Hit [ ("Acme specs", "AMOLED display, GPS, 7 day battery") ];
    Hit [ ("Shop A", "Rs. 12,500 only");
          ("Shop B", "no price listed");
          ("Shop C", "PKR 7,501 (was 9,000)") ];
    Hit [ ("Forum", "Great value") ];
    Bare;
    Failure "quota exceeded";
    Hit [] ]%string.

(** Replies for a run with one competitor whose only price text reads as
    the number zero. *)
Definition fixture_zero : list canned :=
  [ Hit [ ("Acme", "a") ]; Hit []; Hit [ ("Shop", "00") ]; Hit [] ]%string.

Definition start {W} (w : W) : state W := mkState w [].

(** The report of a run, when it returned one. *)
Definition report_of {W} (run : (exn + Report) * state W) : Report :=
  match fst run with
  | inr r => r
  | inl _ => mkReport []
  end.

(** Replies for a run with one competitor and a feature text of 130
    characters. *)
Definition long_text : string :=
  "abcdefghijabcdefghijabcdefghijabcdefghijabcdefghijabcdefghijabcdefghijabcdefghijabcdefghijabcdefghijabcdefghijabcdefghijabcdefghij".

Definition fixture_long : list canned :=
  [ Hit [ ("Acme", "a") ]; Hit [ ("Specs", long_text) ]; Hit []; Hit [] ]%string.

(** Runs against the stubs. *)
Definition fixture_run := market_research scripted (lit "Foo") (start fixture).
Definition zero_run := market_research scripted (lit "Foo") (start fixture_zero).
Definition outage_run := market_research unreachable (lit "Foo") (start tt).
Definition long_run := market_research scripted (lit "Foo") (start fixture_long).

(** A provider that replays raw replies, well shaped or not. *)
Definition replay (q : pystr) (n : Z) (w : list response)
  : response * list response :=
  match w with
  | r :: rest => (r, rest)
  | [] => (Returns (Some []), [])
  end.

(** A competitor list whose second item has no title. *)
Definition fixture_untitled : list response :=
  [ Returns (Some [ mkResult (Some (lit "Acme")) (Some (lit "a"));
                    mkResult None (Some (lit "b")) ]) ].

(** A features list whose item has no content. *)
Definition fixture_no_content : list response :=
  [ Returns (Some [ mkResult (Some (lit "Acme | deals")) (Some (lit "a")) ]);
    Returns (Some [ mkResult (Some (lit "Specs")) None ]) ].

(** A run whose price query fails with a message that holds a number. *)
Definition fixture_rate_limited : list canned :=
  [ Hit [ ("Acme", "a") ]; Hit [];
    Failure "HTTP 429 Too Many Requests"; Hit [] ]%string.

Definition rate_limited_run :=
  market_research scripted (lit "Foo") (start fixture_rate_limited).

(** A report in which two competitors share a name and both have a price,
    and a third has none. *)
Definition report_shared_name : Report :=
  mkReport [ mkSummary (lit "Acme") [] [] [] (Some 100);
             mkSummary (lit "Zen") [] [] [] None;
             mkSummary (lit "Acme") [] [] [] (Some 200) ].

(* ===================================================================== *)
(** ** Vocabulary of the statements *)

(** Two adjacent decimal digits at positions [i] and [i + 1] of [s]: a
    place where [\d{2,6}] can match. *)
Definition digit_pair_at (s : pystr) (i : nat) : Prop :=
  exists c d, s !! i = Some c /\ s !! S i = Some d
              /\ is_digit c = true /\ is_digit d = true.

(** [rest] is empty or begins with a character satisfying [p]. *)
Definition stops_at {A} (p : A -> bool) (rest : list A) : Prop :=
  rest = [] \/ exists c r, rest = c :: r /\ p c = true.

Definition not_sep (c : char) : bool := negb (is_sep c).

Definition non_digit (c : char) : bool := negb (is_digit c).

(** [str] is what the program stores for the result [x]: its title, then
    [": "], then the first 120 characters of its content (all of it when
    it is shorter). *)
Definition is_snippet (x : SearchResult) (str : pystr) : Prop :=
  exists t body pre rest,
    title x = Some t /\ content x = Some body
    /\ str = t ++ lit ": " ++ pre
    /\ body = pre ++ rest
    /\ pre = take 120 body
    /\ (length pre <= 120)%nat.

(** The values [extract_price] returns on the contents of a result list,
    in order, failures left out. *)
Definition extracted (price_results : list SearchResult) : list Z :=
  omap (fun p => extract_price (default [] (content p))) price_results.

(** Those of them that are not zero. *)
Definition nonzero (vals : list Z) : list Z :=
  List.filter (fun v => negb (v =? 0)) vals.

(** The competitor [c] as the loop body builds it from the name [comp] and
    the provider's three replies. *)
Definition summary_from (comp : pystr) (rf rp rr : response)
    (c : CompetitorSummary) : Prop :=
  name c = comp
  /\ Forall2 is_snippet (results_of rf) (features c)
  /\ Forall2 is_snippet (results_of rp) (price c)
  /\ Forall2 is_snippet (results_of rr) (reviews c)
  /\ avg_price c =
       match keep_truthy
               (map (fun p => extract_price (default [] (content p)))
                    (results_of rp)) with
       | [] => None
       | v :: vs => Some (sum (v :: vs) / Z.of_nat (length (v :: vs)))
       end.

(** The provider calls of one pass through the loop body. *)
Definition competitor_calls (comp : pystr) (rf rp rr : response) : list Call :=
  [mkCall (features_query comp) 5 rf; mkCall (price_query comp) 5 rp;
   mkCall (reviews_query comp) 5 rr].

(** The competitors a loop run appends, with the calls it makes. *)
Inductive loop_trace : list CompetitorSummary -> list Call -> Prop :=
| trace_nil : loop_trace [] []
| trace_cons c rf rp rr cs log :
    summary_from (name c) rf rp rr c ->
    loop_trace cs log ->
    loop_trace (c :: cs) (competitor_calls (name c) rf rp rr ++ log).

(** Every result list the provider returns is made of well-shaped items. *)
Definition shaped {W} (client_search : pystr -> Z -> W -> response * W) : Prop :=
  forall q n w l,
    fst (client_search q n w) = Returns (Some l) -> Forall well_shaped l.

(** The price line of a competitor section: there is one when the average
    price is an integer other than zero. *)
Definition price_lines (a : option Z) : list flowable :=
  match a with
  | Some v => if v =? 0 then [] else [Paragraph (price_text v) Normal]
  | None => []
  end.

(** The part of the story that belongs to one competitor. *)
Definition competitor_section (c : CompetitorSummary) : list flowable :=
  [Paragraph (competitor_text (name c)) Heading2]
    ++ price_lines (avg_price c)
    ++ [Paragraph (lit "Key Features:") Heading3]
    ++ map bullet (features c)
    ++ [Paragraph (lit "Prices:") Heading3]
    ++ map bullet (price c)
    ++ [Paragraph (lit "Customer Reviews:") Heading3]
    ++ map bullet (reviews c)
    ++ [Spacer 1 12].

(** A body paragraph that opens with the money-bag sign of the price line;
    bullets open with a bullet sign, and the other paragraphs are headings. *)
Definition is_price_line (f : flowable) : bool :=
  match f with
  | Paragraph (c :: _) Normal => char_eqb c 0x1F4B0%N
  | _ => false
  end.

(** [text] is [digits] with a comma in front of every block of three
    characters counted from the right end, and nowhere else. *)
Definition grouped (digits text : pystr) : Prop :=
  remove_char 0x2C%N text = digits
  /\ (forall (i : nat) c,
        rev text !! i = Some c -> (c = 0x2C%N <-> (i mod 4 = 3)%nat))
  /\ (forall c r, text = c :: r -> c <> 0x2C%N).

(** The sign [format] writes in front of the digits. *)
Definition sign_of (v : Z) : pystr := if v <? 0 then [0x2D%N] else [].

(** A competitor whose average price passes the truth test. *)
Definition priced (c : CompetitorSummary) : bool := truthy (avg_price c).

(** The caption of a panel: there is one when the average price is an
    integer other than zero. *)
Definition captions (a : option Z) : list widget :=
  match a with
  | Some v => if v =? 0 then [] else [Caption (price_text v)]
  | None => []
  end.

Definition item (x : pystr) : widget := WriteText (lit "- " ++ x).

(** What the expander of one competitor holds. *)
Definition panel (c : CompetitorSummary) : list widget :=
  captions (avg_price c)
    ++ [Subheader (lit "Key Features")] ++ map item (features c)
    ++ [Subheader (lit "Price in PKR")] ++ map item (price c)
    ++ [Subheader (lit "Customer Sentiment")] ++ map item (reviews c).

Definition expander_of (c : CompetitorSummary) : widget :=
  Expander ([0x1F4CC%N; 0x20%N] ++ name c) (panel c).

(** What one pass of the loop does to the [avg_prices] dictionary. *)
Definition record_price (d : list (pystr * Z)) (c : CompetitorSummary)
  : list (pystr * Z) :=
  match avg_price c with
  | Some v => if v =? 0 then d else dict_set d (name c) v
  | None => d
  end.

(** The chart part of the page for a dictionary of prices. *)
Definition bar_chart (d : list (pystr * Z)) : list widget :=
  match d with
  | [] => []
  | _ :: _ =>
      [ Subheader ([0x1F4CA%N] ++ lit " Price Comparison Chart");
        Pyplot (BarChart (map fst d) (map snd d) (lit "Price (PKR)")
                  (lit "Average Price Comparison of Competitors")) ]
  end.

(** Among the competitors [cs], the last one named [k] that has a price
    has the price [v]. *)
Definition wins (cs : list CompetitorSummary) (k : pystr) (v : Z) : Prop :=
  exists before c after,
    cs = before ++ c :: after
    /\ name c = k /\ avg_price c = Some v /\ v <> 0
    /\ Forall (fun c' => name c' = k -> priced c' = false) after.

(** The texts of the captions, of the written items and of the price
    lines and bullets of a story, in order. *)
Definition caption_texts (ws : list widget) : list pystr :=
  flat_map (fun w => match w with Caption t => [t] | _ => [] end) ws.

Definition item_texts (ws : list widget) : list pystr :=
  flat_map (fun w => match w with
                     | WriteText (_ :: _ :: t) => [t]
                     | _ => []
                     end) ws.

Definition price_line_texts (fs : list flowable) : list pystr :=
  flat_map (fun f => match f with
                     | Paragraph (0x1F4B0%N :: t) Normal => [0x1F4B0%N :: t]
                     | _ => []
                     end) fs.

Definition bullet_texts (fs : list flowable) : list pystr :=
  flat_map (fun f => match f with
                     | Paragraph (0x2022%N :: _ :: t) Normal => [t]
                     | _ => []
                     end) fs.

(* ===================================================================== *)
(** ** Lists: scanning a prefix *)

Section Scan.
Context {A : Type} (p : A -> bool).

Lemma take_drop_while (l : list A) :
  l = take_while p l ++ drop_while p l.
Proof.
  induction l as [|x r IH]; simpl; [reflexivity|].
  destruct (p x); simpl; [now rewrite <- IH | reflexivity].
Qed.

Lemma take_while_all (l : list A) :
  Forall (fun x => p x = true) (take_while p l).
Proof.
  induction l as [|x r IH]; simpl; [constructor|].
  destruct (p x) eqn:E; constructor; assumption.
Qed.

Lemma drop_while_head (l : list A) x r :
  drop_while p l = x :: r -> p x = false.
Proof.
  induction l as [|y t IH]; simpl; [discriminate|].
  destruct (p y) eqn:E; [assumption|].
  intros H; injection H as -> _; assumption.
Qed.

Lemma drop_while_snoc (l : list A) x :
  p x = false -> drop_while p (l ++ [x]) = drop_while p l ++ [x].
Proof.
  intros Hx. induction l as [|y t IH]; simpl.
  - now rewrite Hx.
  - destruct (p y); [assumption | reflexivity].
Qed.

End Scan.

(* ===================================================================== *)
(** ** [clean_name] *)

(** Subscript [0] of [re.split] always exists: it is the text before the
    first separator. *)
Lemma re_split_head (text : pystr) :
  re_split text !! 0%nat = Some (take_while not_sep text).
Proof.
  induction text as [|c rest IH]; simpl; [reflexivity|].
  unfold not_sep at 1. destruct (is_sep c); simpl; [reflexivity|].
  destruct (re_split rest) as [|seg segs]; simpl in *; [discriminate|].
  injection IH as ->. reflexivity.
Qed.

Lemma lstrip_split (s : pystr) :
  s = take_while is_space s ++ lstrip s.
Proof. apply take_drop_while. Qed.

Lemma rstrip_split (s : pystr) :
  s = rstrip s ++ rev (take_while is_space (rev s)).
Proof.
  unfold rstrip. rewrite <- rev_app_distr, <- take_drop_while.
  now rewrite rev_involutive.
Qed.

Lemma strip_first (s : pystr) c r :
  strip s = c :: r -> is_space c = false.
Proof.
  unfold strip, rstrip, lstrip.
  destruct (drop_while is_space s) as [|x t] eqn:E; simpl; [discriminate|].
  pose proof (drop_while_head _ _ _ _ E) as Hx.
  rewrite drop_while_snoc by assumption.
  rewrite rev_app_distr. simpl. intros H; injection H as -> _. assumption.
Qed.

Lemma strip_last (s : pystr) r c :
  strip s = r ++ [c] -> is_space c = false.
Proof.
  unfold strip, rstrip. intros H.
  apply (f_equal (@rev _)) in H.
  rewrite rev_involutive, rev_app_distr in H. simpl in H.
  exact (drop_while_head _ _ _ _ H).
Qed.

Lemma strip_split (s : pystr) :
  exists ws1 ws2,
    s = ws1 ++ strip s ++ ws2
    /\ Forall (fun c => is_space c = true) ws1
    /\ Forall (fun c => is_space c = true) ws2.
Proof.
  exists (take_while is_space s),
         (rev (take_while is_space (rev (lstrip s)))).
  split; [|split].
  - unfold strip. rewrite <- rstrip_split. apply lstrip_split.
  - apply take_while_all.
  - apply List.Forall_rev, take_while_all.
Qed.

(** C6. [clean_name] cuts the text at the first of the characters [|], [-]
    and [:] and returns what is to the left of it with the whitespace at
    both ends removed.  It is a total function of the text alone: subscript
    [0] of the split always exists.  The empty string gives the empty
    string, and ["Acme Watch X | Best Deals 2025"] gives ["Acme Watch X"]. *)
Theorem clean_name_left_segment_trimmed :
  (forall text : pystr,
     exists left rest ws1 ws2,
       text = left ++ rest
       /\ Forall (fun c => is_sep c = false) left
       /\ stops_at is_sep rest
       /\ re_split text !! 0%nat = Some left
       /\ left = ws1 ++ clean_name text ++ ws2
       /\ Forall (fun c => is_space c = true) ws1
       /\ Forall (fun c => is_space c = true) ws2
       /\ (forall c r, clean_name text = c :: r -> is_space c = false)
       /\ (forall r c, clean_name text = r ++ [c] -> is_space c = false))
  /\ clean_name [] = []
  /\ clean_name (lit "Acme Watch X | Best Deals 2025") = lit "Acme Watch X".
Proof.
  split; [|split; reflexivity].
  intros text.
  pose proof (re_split_head text) as Hhd.
  assert (Hcn : clean_name text = strip (take_while not_sep text)).
  { unfold clean_name. now rewrite Hhd. }
  destruct (strip_split (take_while not_sep text)) as (ws1 & ws2 & Hs & H1 & H2).
  exists (take_while not_sep text), (drop_while not_sep text), ws1, ws2.
  repeat split.
  - apply take_drop_while.
  - eapply Forall_impl; [apply take_while_all|].
    intros c Hc. unfold not_sep in Hc. now destruct (is_sep c).
  - destruct (drop_while not_sep text) as [|c r] eqn:E; [now left|].
    right. exists c, r. split; [reflexivity|].
    apply drop_while_head in E. unfold not_sep in E. now destruct (is_sep c).
  - assumption.
  - now rewrite Hcn.
  - assumption.
  - assumption.
  - intros c r. rewrite Hcn. apply strip_first.
  - intros r c. rewrite Hcn. apply strip_last.
Qed.

(* ===================================================================== *)
(** ** [extract_price] *)

Lemma decimal_value_range (c : char) d :
  decimal_value c = Some d -> 0 <= d <= 9.
Proof.
  unfold decimal_value.
  destruct (find (in_run c) decimal_zeros) as [zero|] eqn:E; [|discriminate].
  intros H; injection H as <-.
  apply find_some in E as [_ E]. unfold in_run in E.
  apply andb_prop in E as [E1 E2].
  apply N.leb_le in E1. apply N.ltb_lt in E2. lia.
Qed.

Lemma leading_digits_all n (s : pystr) :
  Forall (fun c => is_digit c = true) (leading_digits n s).
Proof.
  revert s; induction n as [|n IH]; intros [|c r]; simpl; try constructor.
  destruct (is_digit c) eqn:E; constructor; [assumption | apply IH].
Qed.

Lemma leading_digits_length n (s : pystr) :
  (length (leading_digits n s) <= n)%nat.
Proof.
  revert s; induction n as [|n IH]; intros [|c r]; simpl; try lia.
  destruct (is_digit c); simpl; [specialize (IH r)|]; lia.
Qed.

(** The match is a prefix, and it is the longest one the bound allows. *)
Lemma leading_digits_prefix n (s : pystr) :
  exists post,
    s = leading_digits n s ++ post
    /\ (length (leading_digits n s) = n \/ stops_at non_digit post).
Proof.
  revert s; induction n as [|n IH]; intros s.
  - exists s. destruct s; simpl; auto.
  - destruct s as [|c r]; simpl.
    + exists []. split; [reflexivity|]. right. now left.
    + destruct (is_digit c) eqn:E; simpl.
      * destruct (IH r) as (post & Hr & Hm). exists post.
        split; [now rewrite <- Hr|].
        destruct Hm as [Hm|Hm]; [left; now rewrite Hm | now right].
      * exists (c :: r). split; [reflexivity|]. right. right.
        exists c, r. split; [reflexivity|]. unfold non_digit. now rewrite E.
Qed.

(** A match of at least two digits starts exactly where two digits are
    adjacent. *)
Lemma leading_digits_two n (s : pystr) :
  (2 <= length (leading_digits (S (S n)) s))%nat <-> digit_pair_at s 0.
Proof.
  unfold digit_pair_at. split.
  - destruct s as [|c [|d r]]; simpl; try lia.
    + destruct (is_digit c); simpl; lia.
    + destruct (is_digit c) eqn:Ec; simpl; [|lia].
      destruct (is_digit d) eqn:Ed; simpl; [|lia].
      intros _. exists c, d. auto.
  - intros (c & d & Hc & Hd & Ec & Ed).
    destruct s as [|c' [|d' r]]; simpl in *; try discriminate.
    injection Hc as ->. injection Hd as ->.
    rewrite Ec, Ed. simpl. lia.
Qed.

Lemma digit_pair_at_cons x (s : pystr) i :
  digit_pair_at (x :: s) (S i) <-> digit_pair_at s i.
Proof. unfold digit_pair_at. simpl. reflexivity. Qed.

Lemma re_search_price_cons x (r : pystr) :
  re_search_price (x :: r) =
  if (2 <=? length (leading_digits 6 (x :: r)))%nat
  then Some (leading_digits 6 (x :: r))
  else re_search_price r.
Proof. reflexivity. Qed.

Lemma re_search_price_some (s : pystr) m :
  re_search_price s = Some m ->
  exists pre post,
    s = pre ++ m ++ post
    /\ Forall (fun c => is_digit c = true) m
    /\ (2 <= length m <= 6)%nat
    /\ (forall i, (i < length pre)%nat -> ~ digit_pair_at s i)
    /\ (length m = 6%nat \/ stops_at non_digit post).
Proof.
  revert m. induction s as [|x r IH]; intros m; [discriminate|].
  rewrite re_search_price_cons.
  pose proof (leading_digits_two 4 (x :: r)) as Htwo.
  pose proof (leading_digits_prefix 6 (x :: r)) as (post & Hs & Hm).
  pose proof (leading_digits_all 6 (x :: r)) as Hall.
  pose proof (leading_digits_length 6 (x :: r)) as Hlen.
  remember (leading_digits 6 (x :: r)) as m0 eqn:Em0. clear Em0.
  destruct (2 <=? length m0)%nat eqn:E.
  - intros H; injection H as <-. apply Nat.leb_le in E.
    exists [], post. split; [exact Hs|].
    split; [assumption|].
    split; [lia|]. split; [simpl; lia | exact Hm].
  - intros H. apply Nat.leb_gt in E. clear Hs Hm post.
    destruct (IH _ H) as (pre & post & Hs & Hd & Hl & Hp & Hm).
    exists (x :: pre), post. split; [simpl; now rewrite <- Hs|].
    split; [assumption|]. split; [assumption|]. split; [|assumption].
    intros [|i] Hi.
    + rewrite <- Htwo. lia.
    + rewrite digit_pair_at_cons. apply Hp. simpl in Hi. lia.
Qed.

Lemma re_search_price_none (s : pystr) :
  re_search_price s = None -> forall i, ~ digit_pair_at s i.
Proof.
  induction s as [|x r IH]; intros H i.
  - intros (c & d & Hc & _). destruct i; discriminate.
  - rewrite re_search_price_cons in H.
    pose proof (leading_digits_two 4 (x :: r)) as Htwo.
    destruct (2 <=? length (leading_digits 6 (x :: r)))%nat eqn:E;
      [discriminate|].
    apply Nat.leb_gt in E. destruct i as [|i].
    + rewrite <- Htwo. lia.
    + rewrite digit_pair_at_cons. now apply IH.
Qed.

Lemma py_int_bound (s : pystr) :
  Forall (fun c => is_digit c = true) s ->
  0 <= py_int s < 10 ^ Z.of_nat (length s).
Proof.
  unfold py_int. intros Hs.
  assert (G : forall acc, 0 <= acc ->
            0 <= fold_left (fun a c => 10 * a + default 0 (decimal_value c)) s acc
              < (acc + 1) * 10 ^ Z.of_nat (length s)).
  { induction Hs as [|c r Hc Hr IH]; intros acc Hacc.
    - simpl. lia.
    - cbn [fold_left length]. unfold is_digit in Hc.
      destruct (decimal_value c) as [d|] eqn:Ed; [|discriminate].
      apply decimal_value_range in Ed. cbn [default].
      specialize (IH (10 * acc + d) ltac:(lia)).
      rewrite Nat2Z.inj_succ, Z.pow_succ_r by lia.
      assert (0 < 10 ^ Z.of_nat (length r)) by (apply Z.pow_pos_nonneg; lia).
      destruct IH as [IH1 IH2].
      split; [exact IH1 | eapply Z.lt_le_trans; [exact IH2 | nia]]. }
  specialize (G 0 ltac:(lia)). lia.
Qed.

Lemma remove_char_gone (old : char) (s : pystr) :
  Forall (fun c => c <> old) (remove_char old s).
Proof.
  unfold remove_char. induction s as [|c r IH]; simpl; [constructor|].
  unfold char_eqb at 1.
  destruct (N.eqb_spec c old) as [->|Hne]; simpl;
    [assumption | constructor; assumption].
Qed.

(** C4. [extract_price] works on the text with every comma removed.  When
    two adjacent digits occur in it, the result is the integer value of the
    digits matched at the first such place: the match starts at the leftmost
    position where two digits are adjacent, and takes the digits that follow
    up to six, stopping earlier only at a non-digit or at the end.  When no
    two digits are adjacent the result is absent.  So
    [extract_price("Rs. 12,500 only")] is [12500],
    [extract_price("no price listed")] is absent, and of several digit runs
    the first one wins, neither the largest nor the last. *)
Theorem extract_price_first_digit_run :
  (forall text : pystr,
     let s := remove_char 0x2C%N text in
     Forall (fun c => c <> 0x2C%N) s
     /\ match extract_price text with
        | Some v =>
            exists pre run post,
              s = pre ++ run ++ post
              /\ Forall (fun c => is_digit c = true) run
              /\ (2 <= length run <= 6)%nat
              /\ (forall i, (i < length pre)%nat -> ~ digit_pair_at s i)
              /\ (length run = 6%nat \/ stops_at non_digit post)
              /\ v = py_int run
              /\ 0 <= v < 1000000
        | None => forall i, ~ digit_pair_at s i
        end)
  /\ extract_price (lit "Rs. 12,500 only") = Some 12500
  /\ extract_price (lit "no price listed") = None
  /\ extract_price (lit "from 15,000 to 99,999 or 20") = Some 15000.
Proof.
  split; [|repeat split; reflexivity].
  intros text s. split; [apply remove_char_gone|].
  unfold extract_price. fold s.
  destruct (re_search_price s) as [m|] eqn:E.
  - destruct (re_search_price_some _ _ E) as (pre & post & Hs & Hd & Hl & Hp & Hm).
    exists pre, m, post. repeat split; try assumption; try lia.
    + apply (py_int_bound m Hd).
    + pose proof (py_int_bound m Hd) as [_ Hb].
      eapply Z.lt_le_trans; [exact Hb|].
      change 1000000 with (10 ^ Z.of_nat 6).
      apply Z.pow_le_mono_r; lia.
  - now apply re_search_price_none.
Qed.

(* ===================================================================== *)
(** ** Runs of the gateway and of the aggregator *)

Section Runs.
Context {W : Type} (client_search : pystr -> Z -> W -> response * W).

Lemma client_call_run q n (s : state W) :
  client_call client_search q n s =
  (inr (fst (client_search q n (world s))),
   mkState (snd (client_search q n (world s)))
           (calls s ++ [mkCall q n (fst (client_search q n (world s)))])).
Proof. reflexivity. Qed.

Lemma tavily_search_run q n (s : state W) :
  tavily_search client_search q n s =
  (inr (results_of (fst (client_search q n (world s)))),
   snd (client_call client_search q n s)).
Proof.
  unfold tavily_search, bind. rewrite client_call_run. cbn [snd].
  now destruct (fst (client_search q n (world s))).
Qed.

Lemma issue_one q (s : state W) :
  issue client_search [q] s = snd (client_call client_search q 5 s).
Proof. reflexivity. Qed.

Lemma issue_app qs1 qs2 (s : state W) :
  issue client_search (qs1 ++ qs2) s =
  issue client_search qs2 (issue client_search qs1 s).
Proof. unfold issue. apply fold_left_app. Qed.

Lemma issue_cons q qs (s : state W) :
  issue client_search (q :: qs) s =
  issue client_search qs (snd (client_call client_search q 5 s)).
Proof. reflexivity. Qed.

(** A comprehension whose element expression leaves the state alone. *)
Lemma comprehension_inv {A B} (f : A -> M W B) (P : A -> B -> Prop) :
  (forall a s b s', f a s = (inr b, s') -> s' = s /\ P a b) ->
  forall l s bs s',
    comprehension f l s = (inr bs, s') -> s' = s /\ Forall2 P l bs.
Proof.
  intros Hf. induction l as [|a r IH]; intros s bs s'; simpl.
  - unfold ret. intros H; injection H as <- <-. split; [reflexivity|constructor].
  - unfold bind.
    destruct (f a s) as [[e|b] s1] eqn:Ea; [discriminate|].
    destruct (Hf _ _ _ _ Ea) as [-> Pa].
    destruct (comprehension f r s) as [[e|bs'] s2] eqn:Er; [discriminate|].
    destruct (IH _ _ _ Er) as [-> Pr].
    unfold ret. intros H; injection H as <- <-.
    split; [reflexivity | now constructor].
Qed.

Lemma comprehension_total {A B} (f : A -> M W B) (Q : A -> Prop) :
  (forall a s, Q a -> exists b, f a s = (inr b, s)) ->
  forall l s, Forall Q l -> exists bs, comprehension f l s = (inr bs, s).
Proof.
  intros Hf l s Hl. induction Hl as [|a r Ha Hr IH]; simpl.
  - now exists [].
  - destruct (Hf a s Ha) as (b & Eb). destruct IH as (bs & Ebs).
    exists (b :: bs). unfold bind. now rewrite Eb, Ebs.
Qed.

Lemma snippet_inv x (s : state W) str s' :
  snippet x s = (inr str, s') -> s' = s /\ is_snippet x str.
Proof.
  unfold snippet, getitem, bind, ret, raise, is_snippet.
  destruct (title x) as [t|]; [|discriminate].
  destruct (content x) as [body|]; [|discriminate].
  intros H; injection H as <- <-. split; [reflexivity|].
  exists t, body, (take 120 body), (drop 120 body).
  repeat split; [now rewrite take_drop | rewrite length_take; lia].
Qed.

Lemma snippet_total x (s : state W) :
  well_shaped x -> exists str, snippet x s = (inr str, s).
Proof.
  intros [[t Ht] [body Hb]]. unfold snippet, getitem, bind, ret.
  rewrite Ht, Hb. eauto.
Qed.

Lemma results_of_shaped q n w :
  shaped client_search ->
  Forall well_shaped (results_of (fst (client_search q n w))).
Proof.
  intros Hsh. destruct (fst (client_search q n w)) as [[l|]|msg] eqn:E; simpl.
  - now apply (Hsh q n w).
  - constructor.
  - repeat constructor; simpl; eauto.
Qed.

(** One pass through the loop body that returns. *)
Lemma research_competitor_inv comp (s : state W) c s' :
  research_competitor client_search comp s = (inr c, s') ->
  exists rf rp rr,
    summary_from comp rf rp rr c
    /\ calls s' = calls s ++ competitor_calls comp rf rp rr
    /\ s' = issue client_search (sub_queries comp) s.
Proof.
  unfold research_competitor, bind.
  rewrite tavily_search_run.
  set (s1 := snd (client_call client_search (features_query comp) 5 s)).
  set (rf := fst (client_search (features_query comp) 5 (world s))).
  destruct (comprehension snippet (results_of rf) s1)
    as [[e|fs] s1'] eqn:Ef; [discriminate|].
  destruct (comprehension_inv snippet is_snippet snippet_inv _ _ _ _ Ef)
    as [-> Hfs].
  rewrite tavily_search_run.
  set (s2 := snd (client_call client_search (price_query comp) 5 s1)).
  set (rp := fst (client_search (price_query comp) 5 (world s1))).
  destruct (comprehension snippet (results_of rp) s2)
    as [[e|ps] s2'] eqn:Ep; [discriminate|].
  destruct (comprehension_inv snippet is_snippet snippet_inv _ _ _ _ Ep)
    as [-> Hps].
  rewrite tavily_search_run.
  set (s3 := snd (client_call client_search (reviews_query comp) 5 s2)).
  set (rr := fst (client_search (reviews_query comp) 5 (world s2))).
  destruct (comprehension snippet (results_of rr) s3)
    as [[e|rs] s3'] eqn:Er; [discriminate|].
  destruct (comprehension_inv snippet is_snippet snippet_inv _ _ _ _ Er)
    as [-> Hrs].
  unfold ret. intros H; injection H as <- <-.
  exists rf, rp, rr. split; [|split].
  - unfold summary_from.
    destruct (keep_truthy _) as [|v vs]; cbn; auto.
  - subst s3 s2 s1. rewrite !client_call_run. cbn [snd calls world].
    unfold competitor_calls. rewrite <- !app_assoc. reflexivity.
  - reflexivity.
Qed.

Lemma research_competitor_total comp (s : state W) :
  shaped client_search ->
  exists c s', research_competitor client_search comp s = (inr c, s').
Proof.
  intros Hsh. unfold research_competitor, bind.
  rewrite tavily_search_run.
  set (s1 := snd (client_call client_search (features_query comp) 5 s)).
  destruct (comprehension_total snippet well_shaped snippet_total _ s1
              (results_of_shaped (features_query comp) 5 (world s) Hsh))
    as (fs & ->).
  rewrite tavily_search_run.
  set (s2 := snd (client_call client_search (price_query comp) 5 s1)).
  destruct (comprehension_total snippet well_shaped snippet_total _ s2
              (results_of_shaped (price_query comp) 5 (world s1) Hsh))
    as (ps & ->).
  rewrite tavily_search_run.
  set (s3 := snd (client_call client_search (reviews_query comp) 5 s2)).
  destruct (comprehension_total snippet well_shaped snippet_total _ s3
              (results_of_shaped (reviews_query comp) 5 (world s2) Hsh))
    as (rs & ->).
  unfold ret. eauto.
Qed.

Lemma research_loop_inv comps : forall report (s : state W) r s',
  research_loop client_search comps report s = (inr r, s') ->
  exists cs log,
    competitors r = competitors report ++ cs
    /\ map name cs = comps
    /\ loop_trace cs log
    /\ calls s' = calls s ++ log
    /\ s' = issue client_search (flat_map sub_queries comps) s.
Proof.
  induction comps as [|comp rest IH]; intros report s r s';
    cbn [research_loop].
  - unfold ret. intros H; injection H as <- <-.
    exists [], []. rewrite !app_nil_r. repeat split. constructor.
  - unfold bind.
    destruct (research_competitor client_search comp s)
      as [[e|c] s1] eqn:Ec; [discriminate|].
    destruct (research_competitor_inv _ _ _ _ Ec)
      as (rf & rp & rr & Hsum & Hcalls & Hs1).
    intros H. destruct (IH _ _ _ _ H) as (cs & log & Hr & Hn & Ht & Hl & Hs').
    assert (Hname : name c = comp) by apply Hsum.
    exists (c :: cs), (competitor_calls comp rf rp rr ++ log).
    cbn [competitors] in Hr. rewrite <- app_assoc in Hr.
    split; [exact Hr|]. split; [simpl; now rewrite Hname, Hn|].
    split; [rewrite <- Hname in *; now constructor|].
    split; [rewrite Hl, Hcalls; now rewrite <- app_assoc|].
    rewrite Hs', Hs1.
    change (flat_map sub_queries (comp :: rest))
      with (sub_queries comp ++ flat_map sub_queries rest).
    now rewrite issue_app.
Qed.

Lemma research_loop_total comps : forall report (s : state W),
  shaped client_search ->
  exists r s', research_loop client_search comps report s = (inr r, s').
Proof.
  induction comps as [|comp rest IH]; intros report s Hsh; simpl.
  - unfold ret. eauto.
  - unfold bind.
    destruct (research_competitor_total comp s Hsh) as (c & s1 & ->).
    now apply IH.
Qed.

(** The element expression of the competitor-name comprehension. *)
Lemma clean_title_inv x (s : state W) nm s' :
  clean_title x s = (inr nm, s') ->
  s' = s /\ exists t, title x = Some t /\ nm = clean_name t.
Proof.
  unfold clean_title, getitem, bind, ret, raise.
  destruct (title x) as [t|]; [|discriminate].
  intros H; injection H as <- <-. eauto.
Qed.

Lemma clean_title_total x (s : state W) :
  well_shaped x ->
  exists nm, clean_title x s = (inr nm, s).
Proof.
  intros [[t Ht] _]. unfold clean_title, getitem, bind, ret.
  rewrite Ht. eauto.
Qed.

(** A run of [market_research] that returns: the report, the calls made
    and the state reached. *)
Lemma market_research_inv product_name (s : state W) r s' :
  market_research client_search product_name s = (inr r, s') ->
  let r0 := fst (client_search (competitors_query product_name) 5 (world s)) in
  exists log,
    Forall2 (fun x c => exists t, title x = Some t /\ name c = clean_name t)
            (take 3 (results_of r0)) (competitors r)
    /\ loop_trace (competitors r) log
    /\ calls s' = calls s ++ mkCall (competitors_query product_name) 5 r0 :: log
    /\ s' = issue client_search
              (competitors_query product_name
                 :: flat_map sub_queries (map name (competitors r))) s.
Proof.
  unfold market_research, bind. rewrite tavily_search_run.
  set (q := competitors_query product_name).
  set (s1 := snd (client_call client_search q 5 s)).
  set (r0 := fst (client_search q 5 (world s))).
  destruct (comprehension _ (take 3 (results_of r0)) s1)
    as [[e|comps] s1'] eqn:Ec; [discriminate|].
  destruct (comprehension_inv _
              (fun x nm => exists t, title x = Some t /\ nm = clean_name t)
              clean_title_inv _ _ _ _ Ec) as [-> Hnames].
  intros H. destruct (research_loop_inv _ _ _ _ _ H)
    as (cs & log & Hr & Hn & Ht & Hl & Hs').
  cbn [competitors app] in Hr. subst cs.
  exists log. split; [|split; [assumption|split]].
  - rewrite <- Hn in Hnames. clear -Hnames.
    remember (take 3 (results_of r0)) as xs eqn:E. clear E.
    revert xs Hnames. induction (competitors r) as [|c cs IH];
      intros xs Hx; inversion Hx; subst; constructor; auto.
  - rewrite Hl. subst s1. rewrite client_call_run. cbn [snd calls].
    now rewrite <- app_assoc.
  - rewrite Hs', Hn. reflexivity.
Qed.

Lemma market_research_total product_name (s : state W) :
  shaped client_search ->
  exists r s', market_research client_search product_name s = (inr r, s').
Proof.
  intros Hsh. unfold market_research, bind. rewrite tavily_search_run.
  set (q := competitors_query product_name).
  set (s1 := snd (client_call client_search q 5 s)).
  set (r0 := fst (client_search q 5 (world s))).
  assert (Hw : Forall well_shaped (take 3 (results_of r0))).
  { apply Forall_take. now apply results_of_shaped. }
  destruct (comprehension_total _ well_shaped clean_title_total _ s1 Hw)
    as (comps & ->).
  now apply research_loop_total.
Qed.

End Runs.

(* ===================================================================== *)
(** ** The trace of the loop *)

Lemma loop_trace_length cs log :
  loop_trace cs log -> length log = (3 * length cs)%nat.
Proof.
  induction 1 as [|c rf rp rr cs log _ _ IH]; [reflexivity|].
  rewrite length_app. simpl. lia.
Qed.

Lemma loop_trace_queries cs log :
  loop_trace cs log ->
  map query log = flat_map sub_queries (map name cs)
  /\ Forall (fun call => max_results call = 5) log.
Proof.
  induction 1 as [|c rf rp rr cs log _ _ [IH1 IH2]]; [split; [reflexivity|constructor]|].
  split.
  - rewrite map_app, IH1. reflexivity.
  - apply Forall_app. split; [|assumption]. repeat constructor.
Qed.

(** The [k]-th competitor and its three calls. *)
Lemma loop_trace_lookup cs log : loop_trace cs log ->
  forall (k : nat) c, cs !! k = Some c ->
  exists rf rp rr,
    summary_from (name c) rf rp rr c
    /\ log !! (3 * k)%nat = Some (mkCall (features_query (name c)) 5 rf)
    /\ log !! (3 * k + 1)%nat = Some (mkCall (price_query (name c)) 5 rp)
    /\ log !! (3 * k + 2)%nat = Some (mkCall (reviews_query (name c)) 5 rr).
Proof.
  induction 1 as [|c0 rf rp rr cs log Hsum _ IH]; intros k c Hk.
  - destruct k; discriminate.
  - destruct k as [|k].
    + injection Hk as <-. exists rf, rp, rr.
      split; [assumption | repeat split].
    + destruct (IH k c Hk) as (rf' & rp' & rr' & Hs & H0 & H1 & H2).
      exists rf', rp', rr'. split; [assumption|].
      replace (3 * S k)%nat with (3 + 3 * k)%nat by lia.
      replace (3 + 3 * k + 1)%nat with (3 + (3 * k + 1))%nat by lia.
      replace (3 + 3 * k + 2)%nat with (3 + (3 * k + 2))%nat by lia.
      cbn [competitor_calls app lookup list_lookup Nat.add].
      repeat split; assumption.
Qed.

(* ===================================================================== *)
(** ** The average price *)

Lemma keep_truthy_map {A} (f : A -> option Z) (l : list A) :
  keep_truthy (map f l) = nonzero (omap f l).
Proof.
  induction l as [|a r IH]; [reflexivity|].
  change (omap f (a :: r))
    with (match f a with Some y => y :: omap f r | None => omap f r end).
  cbn [map keep_truthy]. destruct (f a) as [v|]; [|exact IH].
  cbn [truthy nonzero List.filter]. fold (nonzero (omap f r)).
  destruct (negb (v =? 0)); now rewrite IH.
Qed.

Lemma nonzero_elem (vals : list Z) v :
  v ∈ nonzero vals <-> v ∈ vals /\ v <> 0.
Proof.
  unfold nonzero. rewrite !list_elem_of_In, filter_In.
  rewrite negb_true_iff, Z.eqb_neq. reflexivity.
Qed.

Lemma extracted_elem (l : list SearchResult) v :
  v ∈ extracted l <->
  exists p, p ∈ l /\ extract_price (default [] (content p)) = Some v.
Proof. unfold extracted. apply list_elem_of_omap. Qed.

Lemma extract_price_range (text : pystr) v :
  extract_price text = Some v -> 0 <= v < 1000000.
Proof.
  unfold extract_price.
  destruct (re_search_price _) as [m|] eqn:E; [|discriminate].
  intros H; injection H as <-.
  destruct (re_search_price_some _ _ E) as (_ & _ & _ & Hd & Hl & _).
  pose proof (py_int_bound m Hd) as [H0 Hb]. split; [assumption|].
  eapply Z.lt_le_trans; [exact Hb|].
  change 1000000 with (10 ^ Z.of_nat 6). apply Z.pow_le_mono_r; lia.
Qed.

Lemma sum_cons v (l : list Z) : sum (v :: l) = v + sum l.
Proof.
  unfold sum. cbn [fold_left].
  assert (G : forall a b, fold_left Z.add l (a + b) = a + fold_left Z.add l b).
  { induction l as [|x r IH]; intros a b; cbn [fold_left]; [reflexivity|].
    rewrite <- Z.add_assoc. apply IH. }
  rewrite <- (G v 0). f_equal. lia.
Qed.

Lemma sum_bounds (l : list Z) lo hi :
  Forall (fun v => lo <= v <= hi) l ->
  lo * Z.of_nat (length l) <= sum l <= hi * Z.of_nat (length l).
Proof.
  induction 1 as [|v r Hv _ IH]; [cbn; lia|].
  rewrite sum_cons. cbn [length]. lia.
Qed.

(* ===================================================================== *)
(** ** The research aggregator *)

Lemma nonzero_kept_positive (l : list SearchResult) :
  Forall (fun v => 1 <= v <= 999999) (nonzero (extracted l)).
Proof.
  apply Forall_forall. intros v Hv.
  apply nonzero_elem in Hv as [Hv Hnz].
  apply extracted_elem in Hv as (p & _ & Hp).
  apply extract_price_range in Hp. lia.
Qed.

(** What [summary_from] says about the average, in terms of the values
    extracted. *)
Lemma summary_avg_price comp rf rp rr c :
  summary_from comp rf rp rr c ->
  let kept := nonzero (extracted (results_of rp)) in
  (is_Some (avg_price c) <->
     exists p v, p ∈ results_of rp
                 /\ extract_price (default [] (content p)) = Some v /\ v <> 0)
  /\ (forall a, avg_price c = Some a ->
        a = sum kept / Z.of_nat (length kept)
        /\ a = Z.quot (sum kept) (Z.of_nat (length kept))
        /\ 1 <= a).
Proof.
  intros (_ & _ & _ & _ & Havg) kept.
  rewrite keep_truthy_map in Havg. fold (extracted (results_of rp)) in Havg.
  fold kept in Havg.
  pose proof (nonzero_kept_positive (results_of rp)) as Hpos. fold kept in Hpos.
  assert (Hex : (exists v, v ∈ kept) <->
                exists p v, p ∈ results_of rp
                  /\ extract_price (default [] (content p)) = Some v /\ v <> 0).
  { split.
    - intros (v & Hv). apply nonzero_elem in Hv as [Hv Hnz].
      apply extracted_elem in Hv as (p & Hp & Hv). eauto.
    - intros (p & v & Hp & Hv & Hnz). exists v. apply nonzero_elem.
      split; [|assumption]. apply extracted_elem. eauto. }
  split.
  - rewrite <- Hex. destruct kept as [|v vs]; rewrite Havg.
    + split; [intros [a Ha]; discriminate|].
      intros (v & Hv). now apply elem_of_nil in Hv.
    + split; [|eauto]. intros _. exists v. apply list_elem_of_here.
  - intros a Ha. rewrite Ha in Havg.
    destruct kept as [|v vs] eqn:E; [discriminate|].
    injection Havg as ->.
    pose proof (sum_bounds _ _ _ Hpos) as Hsum.
    cbn [length] in *.
    assert (Hlen : 0 < Z.of_nat (S (length vs))) by lia.
    split; [reflexivity|]. split.
    + symmetry. apply Z.quot_div_nonneg; lia.
    + apply Z.div_le_lower_bound; lia.
Qed.

(** Where the calls of the [k]-th competitor sit among the calls of a run. *)
Lemma market_research_competitor {W}
    (client_search : pystr -> Z -> W -> response * W)
    product_name (s : state W) r s' :
  market_research client_search product_name s = (inr r, s') ->
  forall (k : nat) c, competitors r !! k = Some c ->
  exists rf rp rr,
    summary_from (name c) rf rp rr c
    /\ calls s' !! (length (calls s) + 3 * k + 1)%nat
       = Some (mkCall (features_query (name c)) 5 rf)
    /\ calls s' !! (length (calls s) + 3 * k + 2)%nat
       = Some (mkCall (price_query (name c)) 5 rp)
    /\ calls s' !! (length (calls s) + 3 * k + 3)%nat
       = Some (mkCall (reviews_query (name c)) 5 rr).
Proof.
  intros Hrun k c Hk.
  destruct (market_research_inv _ _ _ _ _ Hrun) as (log & _ & Ht & Hl & _).
  destruct (loop_trace_lookup _ _ Ht k c Hk) as (rf & rp & rr & Hs & H0 & H1 & H2).
  exists rf, rp, rr. split; [assumption|]. rewrite Hl.
  rewrite !lookup_app_r by lia.
  replace (length (calls s) + 3 * k + 1 - length (calls s))%nat
    with (S (3 * k)) by lia.
  replace (length (calls s) + 3 * k + 2 - length (calls s))%nat
    with (S (3 * k + 1)) by lia.
  replace (length (calls s) + 3 * k + 3 - length (calls s))%nat
    with (S (3 * k + 2)) by lia.
  repeat split; assumption.
Qed.

Lemma scripted_shaped : shaped scripted.
Proof.
  intros q n [|c rest] l H; cbn in H.
  - injection H as <-. constructor.
  - destruct c as [items| |message]; cbn in H; try discriminate.
    injection H as <-. apply Forall_forall. intros x Hx.
    apply list_elem_of_fmap in Hx as (tc & -> & _).
    split; eexists; reflexivity.
Defined.

Lemma unreachable_shaped : shaped unreachable.
Proof. intros q n w l H. discriminate H. Defined.

(** C1, as the code has it.  A run returns a report whenever the results
    the provider returns are well shaped.  In a run that returns a report,
    the average price of a competitor is present exactly when
    [extract_price] returned a value other than zero on the content of at
    least one result of that competitor's price query; it is then the sum
    of the non-zero extracted values, taken in the order of the results,
    divided by their number, rounded down (which on these non-negative
    values is truncation), and it is at least 1. *)
Theorem avg_price_mean_of_nonzero_extractions {W}
    (client_search : pystr -> Z -> W -> response * W)
    product_name (s : state W) :
  (shaped client_search ->
   exists r s', market_research client_search product_name s = (inr r, s'))
  /\ forall r s',
       market_research client_search product_name s = (inr r, s') ->
       forall (k : nat) c, competitors r !! k = Some c ->
       exists rp,
         calls s' !! (length (calls s) + 3 * k + 2)%nat
           = Some (mkCall (price_query (name c)) 5 rp)
         /\ (is_Some (avg_price c) <->
               exists p v, p ∈ results_of rp
                           /\ extract_price (default [] (content p)) = Some v
                           /\ v <> 0)
         /\ (forall a, avg_price c = Some a ->
               let kept := nonzero (extracted (results_of rp)) in
               a = sum kept / Z.of_nat (length kept)
               /\ a = Z.quot (sum kept) (Z.of_nat (length kept))
               /\ 1 <= a).
Proof.
  split; [apply market_research_total|].
  intros r s' Hrun k c Hk.
  destruct (market_research_competitor _ _ _ _ _ Hrun k c Hk)
    as (rf & rp & rr & Hsum & _ & Hp & _).
  exists rp. split; [exact Hp|].
  exact (summary_avg_price _ _ _ _ _ Hsum).
Qed.

Lemma avg_price_mean_witness :
  shaped scripted
  /\ (exists r s', market_research scripted (lit "Foo") (start fixture)
                   = (inr r, s'))
  /\ competitors (report_of fixture_run) !! 0%nat
       = Some (mkSummary (lit "Acme Watch X")
                 [lit "Acme specs: AMOLED display, GPS, 7 day battery"]
                 [lit "Shop A: Rs. 12,500 only"; lit "Shop B: no price listed";
                  lit "Shop C: PKR 7,501 (was 9,000)"]
                 [lit "Forum: Great value"]
                 (Some 10000))
  /\ exists rp,
       calls (snd fixture_run) !! 2%nat
         = Some (mkCall (price_query (lit "Acme Watch X")) 5 rp)
       /\ (is_Some (Some 10000) <->
             exists p v, p ∈ results_of rp
                         /\ extract_price (default [] (content p)) = Some v
                         /\ v <> 0)
       /\ (forall a, Some 10000 = Some a ->
             let kept := nonzero (extracted (results_of rp)) in
             a = sum kept / Z.of_nat (length kept)
             /\ a = Z.quot (sum kept) (Z.of_nat (length kept))
             /\ 1 <= a).
Proof.
  assert (Hrun : market_research scripted (lit "Foo") (start fixture)
                 = (inr (report_of fixture_run), snd fixture_run))
    by (vm_compute; reflexivity).
  assert (Hk : competitors (report_of fixture_run) !! 0%nat
               = Some (mkSummary (lit "Acme Watch X")
                 [lit "Acme specs: AMOLED display, GPS, 7 day battery"]
                 [lit "Shop A: Rs. 12,500 only"; lit "Shop B: no price listed";
                  lit "Shop C: PKR 7,501 (was 9,000)"]
                 [lit "Forum: Great value"]
                 (Some 10000)))
    by (vm_compute; reflexivity).
  pose proof (avg_price_mean_of_nonzero_extractions scripted (lit "Foo")
                (start fixture)) as [Htotal Hmean].
  split; [exact scripted_shaped|].
  split; [exact (Htotal scripted_shaped)|]. split; [exact Hk|].
  exact (Hmean _ _ Hrun 0%nat _ Hk).
Defined.

(** C1 as stated fails: a price text that reads as the number zero is a
    successful extraction, yet the average stays absent. *)
Lemma avg_price_absent_after_zero_extraction :
  exists c rp,
    zero_run = (inr (mkReport [c]), snd zero_run)
    /\ calls (snd zero_run) !! 2%nat
         = Some (mkCall (price_query (name c)) 5 rp)
    /\ ~ (is_Some (avg_price c) <->
            exists p, p ∈ results_of rp
                      /\ is_Some (extract_price (default [] (content p)))).
Proof.
  exists (mkSummary (lit "Acme") [] [lit "Shop: 00"] [] None),
         (reply_of (Hit [("Shop", "00")]%string)).
  split; [vm_compute; reflexivity|]. split; [vm_compute; reflexivity|].
  intros [_ H].
  destruct H as [a Ha]; [|discriminate].
  exists (result ("Shop", "00")%string). split; [apply list_elem_of_here|].
  exists 0. vm_compute. reflexivity.
Qed.

(** C2. Whatever the query, when the provider client raises, [tavily_search]
    returns exactly one result, with title ["Error"] and with the failure
    description as content, and raises nothing itself.  And when every
    result the provider returns carries a title and a content, as the
    sentinel does, [market_research] returns a report: no subscript fails. *)
Theorem search_failure_becomes_sentinel {W}
    (client_search : pystr -> Z -> W -> response * W) :
  (forall q n (s : state W) message w',
     client_search q n (world s) = (Raises message, w') ->
     tavily_search client_search q n s
     = (inr [mkResult (Some (lit "Error")) (Some message)],
        mkState w' (calls s ++ [mkCall q n (Raises message)])))
  /\ (shaped client_search ->
      forall product_name (s : state W),
        exists r s', market_research client_search product_name s = (inr r, s')).
Proof.
  split.
  - intros q n s message w' H.
    rewrite tavily_search_run, client_call_run, H. reflexivity.
  - intros Hsh product_name s. now apply market_research_total.
Qed.

Lemma search_failure_witness :
  tavily_search unreachable (lit "any query") 5 (start tt)
  = (inr [mkResult (Some (lit "Error")) (Some (lit "connection refused"))],
     mkState tt [mkCall (lit "any query") 5 (Raises (lit "connection refused"))])
  /\ exists r s', market_research unreachable (lit "Foo") (start tt) = (inr r, s').
Proof.
  split.
  - exact (proj1 (search_failure_becomes_sentinel unreachable)
             (lit "any query") 5 (start tt) (lit "connection refused") tt
             eq_refl).
  - exact (proj2 (search_failure_becomes_sentinel unreachable)
             unreachable_shaped (lit "Foo") (start tt)).
Defined.

(** C3. A run returns a report whenever the results the provider returns
    are well shaped.  In a run that returns a report, the competitors are at
    most three; there is one for each of the first three results of the
    competitor query, in the same order, named by [clean_name] of that
    result's title.  Nothing is dropped: results whose titles clean to the
    same name give competitors with the same name. *)
Theorem competitors_are_first_three_cleaned_titles {W}
    (client_search : pystr -> Z -> W -> response * W)
    product_name (s : state W) :
  (shaped client_search ->
   exists r s', market_research client_search product_name s = (inr r, s'))
  /\ forall r s',
       market_research client_search product_name s = (inr r, s') ->
       let competitors_data :=
         results_of
           (fst (client_search (competitors_query product_name) 5 (world s))) in
       (length (competitors r) <= 3)%nat
       /\ length (competitors r) = Nat.min 3 (length competitors_data)
       /\ map (fun c => Some (name c)) (competitors r)
          = map (fun item => clean_name <$> title item)
              (take 3 competitors_data).
Proof.
  split; [apply market_research_total|].
  intros r s' Hrun cd.
  destruct (market_research_inv _ _ _ _ _ Hrun) as (log & Hn & _).
  fold cd in Hn.
  assert (Hlen : length (competitors r) = Nat.min 3 (length cd)).
  { rewrite <- (Forall2_length _ _ _ Hn). apply length_take. }
  split; [lia|]. split; [exact Hlen|].
  clear Hlen. induction Hn as [|x c xs cs (t & Ht & Hc) _ IH]; [reflexivity|].
  cbn [map]. rewrite IH, Ht, Hc. reflexivity.
Qed.

Lemma competitors_witness :
  shaped scripted
  /\ (exists r s', market_research scripted (lit "Foo") (start fixture)
                   = (inr r, s'))
  /\ map name (competitors (report_of fixture_run))
     = [lit "Acme Watch X"; lit "Acme Watch X"; lit "Zenith Band"]
  /\ (length (competitors (report_of fixture_run)) <= 3)%nat
  /\ length (competitors (report_of fixture_run))
     = Nat.min 3 (length (results_of (fst (scripted
                    (competitors_query (lit "Foo")) 5 fixture))))
  /\ map (fun c => Some (name c)) (competitors (report_of fixture_run))
     = map (fun item => clean_name <$> title item)
         (take 3 (results_of (fst (scripted
                    (competitors_query (lit "Foo")) 5 fixture)))).
Proof.
  assert (Hrun : market_research scripted (lit "Foo") (start fixture)
                 = (inr (report_of fixture_run), snd fixture_run))
    by (vm_compute; reflexivity).
  pose proof (competitors_are_first_three_cleaned_titles scripted (lit "Foo")
                (start fixture)) as [Htotal Hnames].
  split; [exact scripted_shaped|].
  split; [exact (Htotal scripted_shaped)|].
  split; [vm_compute; reflexivity|].
  exact (Hnames _ _ Hrun).
Defined.

(** C5. A run returns a report whenever the results the provider returns
    are well shaped.  In a run that returns a report, the [features],
    [price] and [reviews] lists of a competitor hold one string for each
    result of the corresponding query, in order, and that string is the
    result's title, then [": "], then the first 120 characters of the
    result's content, or all of it when it is shorter; nothing else is
    stored. *)
Theorem stored_strings_are_title_and_content_prefix {W}
    (client_search : pystr -> Z -> W -> response * W)
    product_name (s : state W) :
  (shaped client_search ->
   exists r s', market_research client_search product_name s = (inr r, s'))
  /\ forall r s',
       market_research client_search product_name s = (inr r, s') ->
       forall (k : nat) c, competitors r !! k = Some c ->
       exists rf rp rr,
         calls s' !! (length (calls s) + 3 * k + 1)%nat
           = Some (mkCall (features_query (name c)) 5 rf)
         /\ calls s' !! (length (calls s) + 3 * k + 2)%nat
           = Some (mkCall (price_query (name c)) 5 rp)
         /\ calls s' !! (length (calls s) + 3 * k + 3)%nat
           = Some (mkCall (reviews_query (name c)) 5 rr)
         /\ Forall2 is_snippet (results_of rf) (features c)
         /\ Forall2 is_snippet (results_of rp) (price c)
         /\ Forall2 is_snippet (results_of rr) (reviews c).
Proof.
  split; [apply market_research_total|].
  intros r s' Hrun k c Hk.
  destruct (market_research_competitor _ _ _ _ _ Hrun k c Hk)
    as (rf & rp & rr & (_ & Hf & Hp & Hr & _) & H1 & H2 & H3).
  exists rf, rp, rr. repeat split; assumption.
Qed.

Lemma stored_strings_witness :
  shaped scripted
  /\ (exists r s', market_research scripted (lit "Foo") (start fixture_long)
                   = (inr r, s'))
  /\ competitors (report_of long_run) !! 0%nat
     = Some (mkSummary (lit "Acme")
               [lit "Specs: " ++ take 120 (lit long_text)] [] [] None)
  /\ length (lit long_text) = 130%nat
  /\ length (take 120 (lit long_text)) = 120%nat
  /\ exists rf rp rr,
       calls (snd long_run) !! 1%nat
         = Some (mkCall (features_query (lit "Acme")) 5 rf)
       /\ calls (snd long_run) !! 2%nat
         = Some (mkCall (price_query (lit "Acme")) 5 rp)
       /\ calls (snd long_run) !! 3%nat
         = Some (mkCall (reviews_query (lit "Acme")) 5 rr)
       /\ Forall2 is_snippet (results_of rf)
            [lit "Specs: " ++ take 120 (lit long_text)]
       /\ Forall2 is_snippet (results_of rp) []
       /\ Forall2 is_snippet (results_of rr) [].
Proof.
  assert (Hrun : market_research scripted (lit "Foo") (start fixture_long)
                 = (inr (report_of long_run), snd long_run))
    by (vm_compute; reflexivity).
  assert (Hk : competitors (report_of long_run) !! 0%nat
               = Some (mkSummary (lit "Acme")
                         [lit "Specs: " ++ take 120 (lit long_text)] [] [] None))
    by (vm_compute; reflexivity).
  pose proof (stored_strings_are_title_and_content_prefix scripted (lit "Foo")
                (start fixture_long)) as [Htotal Hstored].
  split; [exact scripted_shaped|].
  split; [exact (Htotal scripted_shaped)|]. split; [exact Hk|].
  split; [vm_compute; reflexivity|]. split; [vm_compute; reflexivity|].
  exact (Hstored _ _ Hrun 0%nat _ Hk).
Defined.

(** C7. A run returns a report whenever the results the provider returns
    are well shaped.  A run that returns a report has called the provider
    once for the competitor query and then, for each competitor in the
    order of the report, for its features, its price and its reviews, each
    call made in the state the previous call left: [1 + 3 * count] calls,
    at most 10, all with [max_results = 5]. *)
Theorem calls_are_one_plus_three_per_competitor {W}
    (client_search : pystr -> Z -> W -> response * W)
    product_name (s : state W) :
  (shaped client_search ->
   exists r s', market_research client_search product_name s = (inr r, s'))
  /\ forall r s',
       market_research client_search product_name s = (inr r, s') ->
       let queries :=
         competitors_query product_name
           :: flat_map sub_queries (map name (competitors r)) in
       exists log,
         calls s' = calls s ++ log
         /\ map query log = queries
         /\ Forall (fun call => max_results call = 5) log
         /\ length log = (1 + 3 * length (competitors r))%nat
         /\ (length log <= 10)%nat
         /\ s' = issue client_search queries s.
Proof.
  split; [apply market_research_total|].
  intros r s' Hrun queries.
  destruct (market_research_inv _ _ _ _ _ Hrun) as (log & Hn & Ht & Hl & Hs).
  destruct (loop_trace_queries _ _ Ht) as [Hq Hm].
  pose proof (loop_trace_length _ _ Ht) as Hlen.
  pose proof (Forall2_length _ _ _ Hn) as Hc. rewrite length_take in Hc.
  eexists. split; [exact Hl|]. split; [|split; [|split; [|split]]].
  - cbn [map query]. now rewrite Hq.
  - constructor; [reflexivity | assumption].
  - cbn [length]. lia.
  - cbn [length]. lia.
  - exact Hs.
Qed.

Lemma calls_witness :
  shaped scripted
  /\ (exists r s', market_research scripted (lit "Foo") (start fixture)
                   = (inr r, s'))
  /\ length (competitors (report_of fixture_run)) = 3%nat
  /\ exists log,
       calls (snd fixture_run) = calls (start fixture) ++ log
       /\ map query log
          = competitors_query (lit "Foo")
              :: flat_map sub_queries
                   (map name (competitors (report_of fixture_run)))
       /\ Forall (fun call => max_results call = 5) log
       /\ length log
          = (1 + 3 * length (competitors (report_of fixture_run)))%nat
       /\ (length log <= 10)%nat
       /\ snd fixture_run
          = issue scripted
              (competitors_query (lit "Foo")
                 :: flat_map sub_queries
                      (map name (competitors (report_of fixture_run))))
              (start fixture).
Proof.
  assert (Hrun : market_research scripted (lit "Foo") (start fixture)
                 = (inr (report_of fixture_run), snd fixture_run))
    by (vm_compute; reflexivity).
  pose proof (calls_are_one_plus_three_per_competitor scripted (lit "Foo")
                (start fixture)) as [Htotal Hcalls].
  split; [exact scripted_shaped|].
  split; [exact (Htotal scripted_shaped)|].
  split; [vm_compute; reflexivity|].
  exact (Hcalls _ _ Hrun).
Defined.

(** C10. When the provider raises on the competitor query and its result
    lists are otherwise well shaped, [market_research] returns a report
    with exactly one competitor, named ["Error"], and after the failed
    call the run makes exactly the features, price and reviews calls for
    that name. *)
Theorem failed_discovery_yields_error_competitor {W}
    (client_search : pystr -> Z -> W -> response * W)
    product_name (s : state W) message w1 :
  shaped client_search ->
  client_search (competitors_query product_name) 5 (world s)
    = (Raises message, w1) ->
  exists c s' rf rp rr,
    market_research client_search product_name s = (inr (mkReport [c]), s')
    /\ name c = lit "Error"
    /\ calls s' =
       calls s ++
         [ mkCall (competitors_query product_name) 5 (Raises message);
           mkCall (lit "Error smartwatch features 2025") 5 rf;
           mkCall (lit "Error smartwatch price in Pakistan 2025 PKR") 5 rp;
           mkCall (lit "Error smartwatch customer reviews 2025") 5 rr ].
Proof.
  intros Hsh Hfail.
  destruct (market_research_total client_search product_name s Hsh)
    as (r & s' & Hrun).
  destruct (market_research_inv _ _ _ _ _ Hrun) as (log & Hn & Ht & Hl & _).
  rewrite Hfail in Hn, Hl. cbn [fst results_of take] in Hn, Hl.
  destruct r as [cs]. cbn [competitors] in *.
  inversion Hn as [|x c xs cs' (t & Ht' & Hc) Hrest]; subst.
  inversion Hrest; subst.
  cbn [sentinel title] in Ht'. injection Ht' as <-.
  assert (Hname : name c = lit "Error") by (rewrite Hc; reflexivity).
  inversion Ht as [|c0 rf rp rr cs0 log0 _ Hnil]; subst.
  inversion Hnil; subst.
  exists c, s', rf, rp, rr. split; [exact Hrun|]. split; [exact Hname|].
  rewrite Hl, Hname. reflexivity.
Qed.

Lemma failed_discovery_witness :
  shaped unreachable
  /\ unreachable (competitors_query (lit "Foo")) 5 (world (start tt))
     = (Raises (lit "connection refused"), tt)
  /\ exists c s' rf rp rr,
       market_research unreachable (lit "Foo") (start tt)
         = (inr (mkReport [c]), s')
       /\ name c = lit "Error"
       /\ calls s' =
          calls (start tt) ++
            [ mkCall (competitors_query (lit "Foo")) 5
                (Raises (lit "connection refused"));
              mkCall (lit "Error smartwatch features 2025") 5 rf;
              mkCall (lit "Error smartwatch price in Pakistan 2025 PKR") 5 rp;
              mkCall (lit "Error smartwatch customer reviews 2025") 5 rr ].
Proof.
  split; [exact unreachable_shaped|]. split; [reflexivity|].
  exact (failed_discovery_yields_error_competitor unreachable (lit "Foo")
           (start tt) (lit "connection refused") tt unreachable_shaped eq_refl).
Defined.

(* ===================================================================== *)
(** ** The [,] format *)

Lemma uint_chars_ascii (d : Decimal.uint) :
  Forall (fun c => (0x30 <= c <= 0x39)%N) (uint_chars d).
Proof. induction d; simpl; constructor; try assumption; lia. Qed.

Lemma numeral_no_comma (n : N) :
  Forall (fun c => c <> 0x2C%N) (numeral n).
Proof.
  eapply Forall_impl; [apply uint_chars_ascii|].
  intros c [H1 H2] ->. revert H1. apply N.lt_nge. reflexivity.
Qed.

Lemma remove_char_id (old : char) (s : pystr) :
  Forall (fun c => c <> old) s -> remove_char old s = s.
Proof.
  unfold remove_char. induction 1 as [|c r Hc _ IH]; simpl; [reflexivity|].
  unfold char_eqb at 1. destruct (N.eqb_spec c old); [contradiction|].
  simpl. now rewrite IH.
Qed.

Lemma group3_remove fuel (r : pystr) :
  Forall (fun c => c <> 0x2C%N) r ->
  remove_char 0x2C%N (group3 fuel r) = r.
Proof.
  revert r. induction fuel as [|fuel IH]; intros r Hr; simpl.
  - now apply remove_char_id.
  - destruct r as [|a [|b [|c [|d rest]]]]; try now apply remove_char_id.
    inversion Hr as [|? ? Ha Hr1]; subst.
    inversion Hr1 as [|? ? Hb Hr2]; subst.
    inversion Hr2 as [|? ? Hc Hr3]; subst.
    unfold remove_char in *. cbn [List.filter].
    unfold char_eqb at 1 2 3 4.
    destruct (N.eqb_spec a 0x2C%N); [contradiction|].
    destruct (N.eqb_spec b 0x2C%N); [contradiction|].
    destruct (N.eqb_spec c 0x2C%N); [contradiction|].
    cbn [negb N.eqb Pos.eqb]. now rewrite IH.
Qed.

Lemma group3_commas fuel : forall r : pystr,
  (length r <= fuel)%nat ->
  Forall (fun c => c <> 0x2C%N) r ->
  forall (i : nat) c,
    group3 fuel r !! i = Some c -> (c = 0x2C%N <-> (i mod 4 = 3)%nat).
Proof.
  induction fuel as [|fuel IH]; intros r Hlen Hr i c Hi.
  - destruct r; [|simpl in Hlen; lia]. destruct i; discriminate.
  - assert (Hshort : forall r' : pystr, (length r' <= 3)%nat ->
              Forall (fun c => c <> 0x2C%N) r' ->
              r' !! i = Some c -> (c = 0x2C%N <-> (i mod 4 = 3)%nat)).
    { intros r' Hl Hf Hc.
      assert (Hlt : (i < 3)%nat).
      { apply lookup_lt_Some in Hc. unfold pystr, char in *. lia. }
      assert (Hne : c <> 0x2C%N).
      { rewrite Forall_forall in Hf. apply Hf.
        eapply list_elem_of_lookup_2; eassumption. }
      split; [contradiction|].
      intros Hm. rewrite Nat.mod_small in Hm by lia. lia. }
    cbn [group3] in Hi.
    destruct r as [|x [|y [|z [|d rest]]]];
      try (refine (Hshort _ _ Hr Hi); simpl; lia).
    inversion Hr as [|? ? Ha Hr1]; subst.
    inversion Hr1 as [|? ? Hb Hr2]; subst.
    inversion Hr2 as [|? ? Hc Hr3]; subst.
    destruct i as [|[|[|[|i]]]]; cbn in Hi.
    + injection Hi as <-. split; [contradiction | cbn; lia].
    + injection Hi as <-. split; [contradiction | cbn; lia].
    + injection Hi as <-. split; [contradiction | cbn; lia].
    + injection Hi as <-. split; [reflexivity | cbn; lia].
    + assert (Hl' : (length (d :: rest) <= fuel)%nat) by (simpl in *; lia).
      rewrite (IH (d :: rest) Hl' Hr3 i c Hi).
      replace (S (S (S (S i)))) with (i + 1 * 4)%nat by lia.
      now rewrite Nat.Div0.mod_add.
Qed.

(** The grouped text ends in a digit of the reversed numeral, never in a
    comma. *)
Lemma group3_last fuel : forall (r : pystr) init c,
  Forall (fun c => c <> 0x2C%N) r ->
  group3 fuel r = init ++ [c] -> c <> 0x2C%N.
Proof.
  induction fuel as [|fuel IH]; intros r init c Hr Hg.
  - simpl in Hg. subst r. apply Forall_app in Hr as [_ Hr].
    now inversion Hr.
  - cbn [group3] in Hg.
    assert (Hplain : forall r' : pystr,
              Forall (fun c => c <> 0x2C%N) r' -> r' = init ++ [c] ->
              c <> 0x2C%N).
    { intros r' Hf ->. apply Forall_app in Hf as [_ Hf]. now inversion Hf. }
    destruct r as [|x [|y [|z [|d rest]]]]; try (apply (Hplain _ Hr Hg)).
    inversion Hr as [|? ? Ha Hr1]; subst.
    inversion Hr1 as [|? ? Hb Hr2]; subst.
    inversion Hr2 as [|? ? Hc Hr3]; subst.
    assert (Hne : group3 fuel (d :: rest) <> []).
    { destruct fuel; simpl; [discriminate|].
      destruct rest as [|? [|? [|? ?]]]; discriminate. }
    destruct init as [|i0 [|i1 [|i2 [|i3 init]]]]; try discriminate.
    + cbn [app] in Hg. injection Hg as _ _ _ _ Hg. contradiction.
    + cbn [app] in Hg. injection Hg as _ _ _ _ Hg. exact (IH _ _ _ Hr3 Hg).
Qed.

Lemma with_commas_grouped (digits : pystr) :
  Forall (fun c => c <> 0x2C%N) digits ->
  grouped digits (with_commas digits).
Proof.
  intros Hd. unfold grouped, with_commas.
  assert (Hr : Forall (fun c => c <> 0x2C%N) (rev digits))
    by now apply List.Forall_rev.
  split; [|split].
  - unfold remove_char. rewrite List.filter_rev.
    fold (remove_char 0x2C%N (group3 (length digits) (rev digits))).
    rewrite group3_remove by assumption. apply rev_involutive.
  - intros i c. rewrite rev_involutive.
    apply group3_commas; [|assumption]. rewrite length_rev. lia.
  - intros c r H. apply (f_equal (@rev _)) in H.
    rewrite rev_involutive in H. simpl in H.
    exact (group3_last _ _ _ _ Hr H).
Qed.

Lemma decimal_value_ascii :
  decimal_value 0x30%N = Some 0 /\ decimal_value 0x31%N = Some 1
  /\ decimal_value 0x32%N = Some 2 /\ decimal_value 0x33%N = Some 3
  /\ decimal_value 0x34%N = Some 4 /\ decimal_value 0x35%N = Some 5
  /\ decimal_value 0x36%N = Some 6 /\ decimal_value 0x37%N = Some 7
  /\ decimal_value 0x38%N = Some 8 /\ decimal_value 0x39%N = Some 9.
Proof. repeat split. Qed.

(** [int] reads a numeral back: first with an accumulator, as
    [Pos.of_uint_acc] does. *)
Lemma py_int_uint_acc (d : Decimal.uint) : forall acc : positive,
  fold_left (fun a c => 10 * a + default 0 (decimal_value c))
            (uint_chars d) (Z.pos acc)
  = Z.pos (Pos.of_uint_acc d acc).
Proof.
  destruct decimal_value_ascii
    as (E0 & E1 & E2 & E3 & E4 & E5 & E6 & E7 & E8 & E9).
  induction d as [|d IH|d IH|d IH|d IH|d IH|d IH|d IH|d IH|d IH|d IH];
    intros acc; cbn [uint_chars fold_left Pos.of_uint_acc];
    [reflexivity|..]; rewrite <- IH;
    rewrite ?E0, ?E1, ?E2, ?E3, ?E4, ?E5, ?E6, ?E7, ?E8, ?E9;
    f_equal; cbn [default from_option id]; unfold id; lia.
Qed.

Lemma py_int_uint (d : Decimal.uint) :
  py_int (uint_chars d) = Z.of_N (Pos.of_uint d).
Proof.
  unfold py_int.
  destruct decimal_value_ascii
    as (E0 & E1 & E2 & E3 & E4 & E5 & E6 & E7 & E8 & E9).
  induction d as [|d IH|d IH|d IH|d IH|d IH|d IH|d IH|d IH|d IH|d IH];
    cbn [uint_chars fold_left Pos.of_uint];
    [reflexivity | rewrite E0; exact IH |..];
    rewrite ?E1, ?E2, ?E3, ?E4, ?E5, ?E6, ?E7, ?E8, ?E9;
    cbn [Z.of_N]; rewrite <- py_int_uint_acc; reflexivity.
Qed.

Lemma py_int_numeral (n : N) : py_int (numeral n) = Z.of_N n.
Proof.
  unfold numeral. rewrite py_int_uint.
  change (Pos.of_uint (N.to_uint n)) with (N.of_uint (N.to_uint n)).
  now rewrite DecimalN.Unsigned.of_to.
Qed.

Lemma format_thousands_grouped (v : Z) :
  format_thousands v = sign_of v ++ with_commas (numeral (Z.abs_N v))
  /\ py_str_int v = sign_of v ++ numeral (Z.abs_N v)
  /\ grouped (numeral (Z.abs_N v)) (with_commas (numeral (Z.abs_N v))).
Proof.
  unfold format_thousands, py_str_int, sign_of.
  split; [|split].
  - now destruct (v <? 0).
  - now destruct (v <? 0).
  - apply with_commas_grouped, numeral_no_comma.
Qed.

(* ===================================================================== *)
(** ** The report renderer *)

Lemma append_bullets_map (story : list flowable) (xs : list pystr) :
  append_bullets story xs = story ++ map bullet xs.
Proof.
  unfold append_bullets, append. revert story.
  induction xs as [|x r IH]; intros story; cbn [fold_left map].
  - now rewrite app_nil_r.
  - rewrite IH, <- app_assoc. reflexivity.
Qed.

Lemma render_competitor_section (story : list flowable) c :
  render_competitor story c = story ++ competitor_section c.
Proof.
  unfold render_competitor, competitor_section, price_lines, truthy, append.
  rewrite !append_bullets_map.
  destruct (avg_price c) as [v|]; [destruct (v =? 0)|];
    cbn [negb]; rewrite <- ?app_assoc; reflexivity.
Qed.

Lemma render_all_sections cs : forall story : list flowable,
  fold_left render_competitor cs story
  = story ++ flat_map competitor_section cs.
Proof.
  induction cs as [|c r IH]; intros story; cbn [fold_left flat_map].
  - now rewrite app_nil_r.
  - rewrite IH, render_competitor_section, <- app_assoc. reflexivity.
Qed.

Lemma build_story_layout report product_name :
  build_story report product_name
  = [Paragraph (title_text product_name) Heading1; Spacer 1 12]
      ++ flat_map competitor_section (competitors report).
Proof. unfold build_story, append. apply render_all_sections. Qed.

Lemma no_price_line_among_bullets (xs : list pystr) :
  List.filter is_price_line (map bullet xs) = [].
Proof. induction xs as [|x r IH]; [reflexivity | exact IH]. Qed.

Lemma price_lines_of_section c :
  List.filter is_price_line (competitor_section c) = price_lines (avg_price c).
Proof.
  unfold competitor_section.
  rewrite !List.filter_app, !no_price_line_among_bullets.
  cbn [List.filter is_price_line app]. rewrite app_nil_r.
  unfold price_lines. destruct (avg_price c) as [v|]; [|reflexivity].
  destruct (v =? 0); reflexivity.
Qed.




(** The reports [market_research] returns never hold a zero average, so on
    them the price line is there exactly when the average is. *)
Lemma researched_prices_are_all_shown {W}
    (client_search : pystr -> Z -> W -> response * W)
    product_name (s : state W) r s' :
  market_research client_search product_name s = (inr r, s') ->
  forall (k : nat) c, competitors r !! k = Some c ->
  ((exists f, In f (competitor_section c) /\ is_price_line f = true)
   <-> is_Some (avg_price c)).
Proof.
  intros Hrun k c Hk.
  destruct (market_research_competitor _ _ _ _ _ Hrun k c Hk)
    as (rf & rp & rr & Hsum & _).
  destruct (summary_avg_price _ _ _ _ _ Hsum) as [_ Hpos].
  split.
  - intros (f & Hin & Hf).
    assert (H : In f (List.filter is_price_line (competitor_section c)))
      by (apply filter_In; auto).
    rewrite price_lines_of_section in H. unfold price_lines in H.
    destruct (avg_price c) as [v|]; [eauto | destruct H].
  - intros [v Hv]. destruct (Hpos v Hv) as (_ & _ & Hge).
    exists (Paragraph (price_text v) Normal).
    assert (H : In (Paragraph (price_text v) Normal)
                  (List.filter is_price_line (competitor_section c))).
    { rewrite price_lines_of_section, Hv. unfold price_lines.
      destruct (Z.eqb_spec v 0); [lia | now left]. }
    apply filter_In in H. exact H.
Qed.

(* ===================================================================== *)
(** ** More on the text normalizer *)

Lemma take_while_id {A} (p : A -> bool) (l : list A) :
  Forall (fun x => p x = true) l -> take_while p l = l.
Proof.
  induction 1 as [|x r Hx _ IH]; simpl; [reflexivity|].
  now rewrite Hx, IH.
Qed.

Lemma drop_while_id {A} (p : A -> bool) (l : list A) :
  (forall x r, l = x :: r -> p x = false) -> drop_while p l = l.
Proof.
  destruct l as [|x r]; [reflexivity|]. intros H. simpl.
  now rewrite (H x r eq_refl).
Qed.

Lemma strip_id (s : pystr) :
  (forall c r, s = c :: r -> is_space c = false) ->
  (forall r c, s = r ++ [c] -> is_space c = false) ->
  strip s = s.
Proof.
  intros Hfirst Hlast. unfold strip, lstrip, rstrip.
  rewrite (drop_while_id _ s Hfirst).
  rewrite drop_while_id; [apply rev_involutive|].
  intros x r H. apply (Hlast (rev r) x).
  rewrite <- (rev_involutive s), H. reflexivity.
Qed.

Lemma strip_keeps (P : char -> Prop) (s : pystr) :
  Forall P s -> Forall P (strip s).
Proof.
  intros H. destruct (strip_split s) as (ws1 & ws2 & Hs & _).
  rewrite Hs in H. apply Forall_app in H as [_ H].
  now apply Forall_app in H as [H _].
Qed.

Lemma clean_name_strip (text : pystr) :
  clean_name text = strip (take_while not_sep text).
Proof. unfold clean_name. now rewrite re_split_head. Qed.

Lemma clean_name_not_sep (text : pystr) :
  Forall (fun c => not_sep c = true) (clean_name text).
Proof. rewrite clean_name_strip. apply strip_keeps, take_while_all. Qed.

Lemma clean_name_fixed_point (text : pystr) :
  clean_name (clean_name text) = clean_name text.
Proof.
  rewrite (clean_name_strip (clean_name text)).
  rewrite (take_while_id _ _ (clean_name_not_sep text)).
  apply strip_id; rewrite clean_name_strip.
  - apply strip_first.
  - apply strip_last.
Qed.

Lemma clean_name_no_separator (text : pystr) :
  Forall (fun c => is_sep c = false) (clean_name text).
Proof.
  eapply Forall_impl; [apply clean_name_not_sep|]. intros c Hc.
  unfold not_sep in Hc. now destruct (is_sep c).
Qed.

(** X1. A cleaned name holds none of the characters [|], [-] and [:], and
    cleaning it again changes nothing. *)
Theorem clean_name_idempotent (text : pystr) :
  Forall (fun c => is_sep c = false) (clean_name text)
  /\ clean_name (clean_name text) = clean_name text.
Proof.
  split; [apply clean_name_no_separator | apply clean_name_fixed_point].
Qed.

Lemma remove_char_app (old : char) (a b : pystr) :
  remove_char old (a ++ b) = remove_char old a ++ remove_char old b.
Proof. unfold remove_char. apply List.filter_app. Qed.

Lemma leading_digits_app n : forall run post : pystr,
  Forall (fun c => is_digit c = true) run ->
  (length run <= n)%nat ->
  (length run = n \/ stops_at non_digit post) ->
  leading_digits n (run ++ post) = run.
Proof.
  induction n as [|n IH]; intros run post Hd Hl Hstop.
  - destruct run; [|simpl in Hl; lia]. now destruct post.
  - destruct run as [|c r].
    + destruct Hstop as [Hstop|[->|(x & t & -> & Hx)]]; try discriminate.
      * reflexivity.
      * simpl. unfold non_digit in Hx. now destruct (is_digit x).
    + inversion Hd as [|? ? Hc Hr]; subst. simpl. rewrite Hc. f_equal.
      apply IH; [assumption | simpl in Hl; lia|].
      destruct Hstop as [Hstop|Hstop]; [left; simpl in Hstop; lia | now right].
Qed.

(** The scan passes over a stretch in which no two digits are adjacent. *)
Lemma re_search_price_skip (pre rest : pystr) :
  (forall i, (i < length pre)%nat -> ~ digit_pair_at (pre ++ rest) i) ->
  re_search_price (pre ++ rest) = re_search_price rest.
Proof.
  induction pre as [|x pre IH]; intros Hp; [reflexivity|].
  cbn [app]. rewrite re_search_price_cons.
  pose proof (leading_digits_two 4 (x :: pre ++ rest)) as Htwo.
  destruct (2 <=? length (leading_digits 6 (x :: pre ++ rest)))%nat eqn:E.
  - apply Nat.leb_le in E. exfalso. apply (Hp 0%nat); [simpl; lia|].
    now apply Htwo.
  - apply IH. intros i Hi. rewrite <- digit_pair_at_cons.
    apply Hp. simpl. lia.
Qed.

Lemma re_search_price_run (run post : pystr) :
  Forall (fun c => is_digit c = true) run ->
  (2 <= length run <= 6)%nat ->
  (length run = 6%nat \/ stops_at non_digit post) ->
  re_search_price (run ++ post) = Some run.
Proof.
  intros Hd Hl Hstop.
  pose proof (leading_digits_app 6 run post Hd ltac:(lia) Hstop) as Hld.
  destruct run as [|c r]; [simpl in Hl; lia|].
  cbn [app] in *. rewrite re_search_price_cons, Hld.
  destruct (Nat.leb_spec 2 (length (c :: r))); [reflexivity | lia].
Qed.

(** X2. The converse of the first-match rule: when the text without its
    commas splits into a stretch with no two adjacent digits, then two to
    six digits, then a rest that the match cannot extend into (six digits
    are matched, or the rest is empty or starts with a non-digit),
    [extract_price] returns the value of exactly those digits.  A number
    of seven or more digits is therefore read as its first six. *)
Theorem extract_price_reads_first_run (text pre run post : pystr) :
  remove_char 0x2C%N text = pre ++ run ++ post ->
  (forall i, (i < length pre)%nat ->
             ~ digit_pair_at (remove_char 0x2C%N text) i) ->
  Forall (fun c => is_digit c = true) run ->
  (2 <= length run <= 6)%nat ->
  (length run = 6%nat \/ stops_at non_digit post) ->
  extract_price text = Some (py_int run).
Proof.
  intros Hs Hp Hd Hl Hstop. unfold extract_price.
  rewrite Hs in *. rewrite re_search_price_skip by assumption.
  now rewrite re_search_price_run.
Qed.

Lemma extract_price_first_six_witness :
  extract_price (lit "Rs. 1,250,000") = Some 125000.
Proof.
  apply (extract_price_reads_first_run (lit "Rs. 1,250,000")
           (lit "Rs. ") (lit "125000") (lit "0")).
  - reflexivity.
  - intros i Hi (c & d & Hc & Hd & Ec & Ed).
    do 4 (destruct i as [|i];
          [vm_compute in Hc; injection Hc as <-; discriminate Ec|]).
    vm_compute in Hi. lia.
  - repeat constructor.
  - vm_compute. lia.
  - left. reflexivity.
Defined.

(* ===================================================================== *)
(** ** Reading back a formatted price *)

Lemma decimal_value_of_ascii (c : char) :
  (0x30 <= c <= 0x39)%N -> decimal_value c = Some (Z.of_N (c - 0x30)).
Proof.
  intros [H1 H2]. unfold decimal_value, decimal_zeros. cbn [List.find].
  unfold in_run at 1.
  destruct (N.leb_spec 0x30 c); [|lia].
  destruct (N.ltb_spec c (0x30 + 10)); [reflexivity | lia].
Qed.

Lemma numeral_digits (n : N) :
  Forall (fun c => is_digit c = true) (numeral n).
Proof.
  eapply Forall_impl; [apply uint_chars_ascii|].
  intros c Hc. unfold is_digit. now rewrite (decimal_value_of_ascii c Hc).
Qed.

Lemma py_int_fold_lower (l : pystr) : forall acc,
  0 <= acc ->
  Forall (fun c => is_digit c = true) l ->
  acc * 10 ^ Z.of_nat (length l)
  <= fold_left (fun a c => 10 * a + default 0 (decimal_value c)) l acc.
Proof.
  induction l as [|c r IH]; intros acc Hacc Hd.
  - simpl. lia.
  - inversion Hd as [|? ? Hc Hr]; subst. cbn [fold_left length].
    unfold is_digit in Hc.
    destruct (decimal_value c) as [d|] eqn:Ed; [|discriminate].
    apply decimal_value_range in Ed. cbn [default from_option]. unfold id.
    specialize (IH (10 * acc + d) ltac:(lia) Hr).
    rewrite Nat2Z.inj_succ, Z.pow_succ_r by lia.
    assert (0 < 10 ^ Z.of_nat (length r)) by (apply Z.pow_pos_nonneg; lia).
    eapply Z.le_trans; [|exact IH]. nia.
Qed.

(** A normalized numeral is empty or starts with a digit other than zero. *)
Lemma nzhead_leading (d : Decimal.uint) :
  Decimal.nzhead d = Decimal.Nil
  \/ exists c rest k,
       uint_chars (Decimal.nzhead d) = c :: rest
       /\ decimal_value c = Some k /\ 1 <= k.
Proof.
  induction d as [|d IH|d _|d _|d _|d _|d _|d _|d _|d _|d _];
    [now left | exact IH |..];
    right; cbn [Decimal.nzhead uint_chars];
    eexists _, _, _; (split; [reflexivity|]); (split; [reflexivity|]); lia.
Qed.

Lemma numeral_normal (n : N) :
  N.to_uint n = Decimal.unorm (N.to_uint n).
Proof.
  rewrite <- (DecimalN.Unsigned.to_of (N.to_uint n)).
  now rewrite DecimalN.Unsigned.of_to.
Qed.

Lemma numeral_shape (n : N) :
  numeral n = [0x30%N]
  \/ exists c rest k,
       numeral n = c :: rest /\ decimal_value c = Some k /\ 1 <= k.
Proof.
  unfold numeral. rewrite numeral_normal. unfold Decimal.unorm.
  destruct (nzhead_leading (N.to_uint n)) as [E|(c & rest & k & E & Ek & Hk)].
  - rewrite E. now left.
  - right. exists c, rest, k. split; [|split; assumption].
    destruct (Decimal.nzhead (N.to_uint n)); try exact E; discriminate E.
Qed.

(** The number of digits of a numeral. *)
Lemma numeral_magnitude (n : N) :
  (0 < n)%N ->
  10 ^ (Z.of_nat (length (numeral n)) - 1) <= Z.of_N n
    < 10 ^ Z.of_nat (length (numeral n)).
Proof.
  intros Hpos. pose proof (py_int_numeral n) as Hval.
  pose proof (numeral_digits n) as Hd.
  pose proof (py_int_bound _ Hd) as [_ Hup].
  rewrite Hval in Hup. split; [|exact Hup].
  destruct (numeral_shape n) as [E|(c & rest & k & E & Ek & Hk)];
    rewrite E in *.
  - change (py_int [0x30%N]) with 0 in Hval. lia.
  - inversion Hd as [|? ? _ Hr]; subst.
    assert (Hlow : (10 * 0 + k) * 10 ^ Z.of_nat (length rest)
                   <= py_int (c :: rest)).
    { unfold py_int. cbn [fold_left]. rewrite Ek.
      change (default 0 (Some k)) with k.
      apply py_int_fold_lower; [lia | assumption]. }
    rewrite Hval in Hlow. cbn [length].
    replace (Z.of_nat (S (length rest)) - 1) with (Z.of_nat (length rest))
      by lia.
    assert (0 < 10 ^ Z.of_nat (length rest)) by (apply Z.pow_pos_nonneg; lia).
    nia.
Qed.

Lemma numeral_length (n : N) :
  10 <= Z.of_N n < 1000000 -> (2 <= length (numeral n) <= 6)%nat.
Proof.
  intros [Hlo Hhi].
  destruct (numeral_magnitude n ltac:(lia)) as [Hge Hlt].
  set (len := length (numeral n)) in *. split.
  - destruct (Nat.le_gt_cases 2 len) as [|Hsmall]; [assumption|].
    assert (10 ^ Z.of_nat len <= 10 ^ 1)
      by (apply Z.pow_le_mono_r; lia).
    change (10 ^ 1) with 10 in *. lia.
  - destruct (Nat.le_gt_cases len 6) as [|Hbig]; [assumption|].
    assert (10 ^ 6 <= 10 ^ (Z.of_nat len - 1))
      by (apply Z.pow_le_mono_r; lia).
    change (10 ^ 6) with 1000000 in *. lia.
Qed.

Lemma no_digit_pair_in_non_digits (pre s : pystr) :
  Forall (fun c => non_digit c = true) pre ->
  forall i, (i < length pre)%nat -> ~ digit_pair_at (pre ++ s) i.
Proof.
  intros Hpre i Hi (c & d & Hc & _ & Ec & _).
  unfold pystr in *. rewrite lookup_app_l in Hc by assumption.
  rewrite Forall_forall in Hpre.
  assert (Hn : non_digit c = true)
    by (apply Hpre; eapply list_elem_of_lookup_2; eassumption).
  unfold non_digit in Hn. rewrite Ec in Hn. discriminate.
Qed.

Lemma price_label_no_digits :
  Forall (fun c => non_digit c = true)
         ([0x1F4B0%N] ++ lit " Estimated Avg Price: PKR ").
Proof. repeat constructor. Qed.

(** X3. A price of two to six digits survives the round trip through the
    renderer: [extract_price] reads the comma-grouped form back as the same
    number, and it reads it back from the whole price line as well. *)
Theorem extract_price_reads_formatted_price (v : Z) :
  10 <= v < 1000000 ->
  extract_price (format_thousands v) = Some v
  /\ extract_price (price_text v) = Some v.
Proof.
  intros Hv.
  destruct (format_thousands_grouped v) as (Hf & _ & (Hrm & _)).
  assert (Hsign : sign_of v = []).
  { unfold sign_of. destruct (Z.ltb_spec v 0); [lia | reflexivity]. }
  rewrite Hsign in Hf. cbn [app] in Hf.
  set (n := Z.abs_N v) in *.
  assert (Hn : Z.of_N n = v) by (subst n; rewrite N2Z.inj_abs_N; lia).
  assert (Hlen : (2 <= length (numeral n) <= 6)%nat)
    by (apply numeral_length; lia).
  assert (Hval : py_int (numeral n) = v) by (now rewrite py_int_numeral).
  split.
  - rewrite <- Hval at 2.
    apply (extract_price_reads_first_run _ [] (numeral n) []).
    + rewrite Hf, Hrm. now rewrite app_nil_r.
    + intros i Hi. simpl in Hi. lia.
    + apply numeral_digits.
    + exact Hlen.
    + right. now left.
  - rewrite <- Hval at 2.
    set (label := [0x1F4B0%N] ++ lit " Estimated Avg Price: PKR ").
    assert (Hlabel : remove_char 0x2C%N (price_text v) = label ++ numeral n ++ []).
    { unfold price_text. rewrite Hf, app_assoc, remove_char_app, Hrm.
      rewrite app_nil_r. reflexivity. }
    apply (extract_price_reads_first_run _ label (numeral n) []).
    + exact Hlabel.
    + rewrite Hlabel. apply no_digit_pair_in_non_digits.
      apply price_label_no_digits.
    + apply numeral_digits.
    + exact Hlen.
    + right. now left.
Qed.

Lemma extract_price_round_trip_witness :
  10 <= 12500 < 1000000
  /\ format_thousands 12500 = lit "12,500"
  /\ extract_price (format_thousands 12500) = Some 12500
  /\ extract_price (price_text 12500) = Some 12500.
Proof.
  split; [lia|]. split; [reflexivity|].
  exact (extract_price_reads_formatted_price 12500 ltac:(lia)).
Defined.

(* ===================================================================== *)
(** ** More on the research aggregator *)

Section Failures.
Context {W : Type} (client_search : pystr -> Z -> W -> response * W).

Lemma clean_title_missing (l : list SearchResult) (s : state W) :
  Exists (fun x => title x = None) l ->
  comprehension clean_title l s = (inl (KeyError (lit "title")), s).
Proof.
  induction l as [|x r IH]; intros H; [inversion H|].
  cbn [comprehension]. unfold bind at 1.
  unfold clean_title at 1, getitem, bind, ret, raise.
  destruct (title x) as [t|] eqn:Et; [|reflexivity].
  inversion H as [? ? Hx|? ? Hr]; subst; [congruence|].
  rewrite (IH Hr). reflexivity.
Qed.

Lemma snippet_malformed (l : list SearchResult) (s : state W) :
  Exists (fun x => ~ well_shaped x) l ->
  exists key,
    (key = lit "title" \/ key = lit "content")
    /\ comprehension snippet l s = (inl (KeyError key), s).
Proof.
  induction l as [|x r IH]; intros H; [inversion H|].
  cbn [comprehension]. unfold bind at 1.
  unfold snippet at 1, getitem, bind, ret, raise.
  destruct (title x) as [t|] eqn:Et; [|exists (lit "title"); auto].
  destruct (content x) as [b|] eqn:Eb; [|exists (lit "content"); auto].
  inversion H as [? ? Hx|? ? Hr]; subst.
  - exfalso. apply Hx. split; [rewrite Et | rewrite Eb]; eauto.
  - destruct (IH Hr) as (key & Hkey & Hrun). exists key.
    split; [assumption|]. now rewrite Hrun.
Qed.

End Failures.

(** X4. When the competitor query brings no results (an empty list, or a
    reply without a ["results"] entry), [market_research] returns a report
    with no competitors after that single call. *)
Theorem no_results_give_empty_report {W}
    (client_search : pystr -> Z -> W -> response * W)
    product_name (s : state W) :
  let answer := client_search (competitors_query product_name) 5 (world s) in
  fst answer = Returns None \/ fst answer = Returns (Some []) ->
  market_research client_search product_name s
  = (inr (mkReport []),
     mkState (snd answer)
             (calls s ++ [mkCall (competitors_query product_name) 5
                            (fst answer)])).
Proof.
  intros answer H. unfold market_research, bind.
  rewrite tavily_search_run, client_call_run. fold answer.
  destruct H as [-> | ->]; reflexivity.
Qed.

Lemma no_results_witness :
  market_research scripted (lit "Foo") (start [Bare])
  = (inr (mkReport []),
     mkState [] [mkCall (competitors_query (lit "Foo")) 5 (Returns None)]).
Proof.
  exact (no_results_give_empty_report scripted (lit "Foo") (start [Bare])
           (or_introl eq_refl)).
Defined.

(** X5. When one of the first three results of the competitor query has no
    title, [market_research] raises [KeyError] for ["title"] right after
    that call: no competitor is researched, whatever the other results
    are. *)
Theorem missing_title_aborts_the_run {W}
    (client_search : pystr -> Z -> W -> response * W)
    product_name (s : state W) :
  let answer := client_search (competitors_query product_name) 5 (world s) in
  Exists (fun x => title x = None) (take 3 (results_of (fst answer))) ->
  market_research client_search product_name s
  = (inl (KeyError (lit "title")),
     mkState (snd answer)
             (calls s ++ [mkCall (competitors_query product_name) 5
                            (fst answer)])).
Proof.
  intros answer H. unfold market_research, bind.
  rewrite tavily_search_run, client_call_run. fold answer. cbn [snd].
  now rewrite clean_title_missing.
Qed.

Lemma missing_title_witness :
  market_research replay (lit "Foo") (start fixture_untitled)
  = (inl (KeyError (lit "title")),
     mkState []
       [mkCall (competitors_query (lit "Foo")) 5
          (Returns (Some [ mkResult (Some (lit "Acme")) (Some (lit "a"));
                           mkResult None (Some (lit "b")) ]))]).
Proof.
  apply (missing_title_aborts_the_run replay (lit "Foo")
           (start fixture_untitled)).
  right. left. reflexivity.
Defined.

Lemma clean_title_titled {W} (x : SearchResult) (s : state W) :
  is_Some (title x) -> exists nm, clean_title x s = (inr nm, s).
Proof.
  intros [t Ht]. unfold clean_title, getitem, bind, ret. rewrite Ht. eauto.
Qed.

(** The names the comprehension gives when every item has a title. *)
Lemma clean_titles_head {W} (x : SearchResult) xs t (s : state W) :
  Forall (fun y => is_Some (title y)) (x :: xs) ->
  title x = Some t ->
  exists rest,
    comprehension clean_title (x :: xs) s = (inr (clean_name t :: rest), s).
Proof.
  intros Htitles Ht.
  destruct (comprehension_total clean_title (fun y => is_Some (title y))
              (fun a s0 => clean_title_titled a s0) _ s Htitles) as (bs & Hbs).
  destruct (comprehension_inv clean_title
              (fun y nm => exists t0, title y = Some t0 /\ nm = clean_name t0)
              clean_title_inv _ _ _ _ Hbs) as [_ Hf2].
  inversion Hf2 as [|? b ? bs' (t0 & Ht0 & Hb) _]; subst.
  rewrite Ht in Ht0. injection Ht0 as <-. eauto.
Qed.



(** X7. In a run that returns a report, when a competitor's price query
    failed, the competitor's price list holds the single string made from
    the sentinel, ["Error: "] and the first 120 characters of the failure
    message, and the message is read for a price like any content: the
    first two to six adjacent digits in it, when not zero, become the
    average price. *)
Theorem failed_price_query_message_is_read_as_price {W}
    (client_search : pystr -> Z -> W -> response * W)
    product_name (s : state W) r s' (k : nat) c message :
  market_research client_search product_name s = (inr r, s') ->
  competitors r !! k = Some c ->
  calls s' !! (length (calls s) + 3 * k + 2)%nat
    = Some (mkCall (price_query (name c)) 5 (Raises message)) ->
  price c = [lit "Error: " ++ take 120 message]
  /\ avg_price c =
     match extract_price message with
     | Some v => if v =? 0 then None else Some v
     | None => None
     end.
Proof.
  intros Hrun Hk Hcall.
  destruct (market_research_competitor _ _ _ _ _ Hrun k c Hk)
    as (rf & rp & rr & (_ & _ & Hp & _ & Havg) & _ & Hp' & _).
  rewrite Hcall in Hp'. injection Hp' as <-.
  cbn [results_of] in Hp, Havg. split.
  - inversion Hp as [|x str xs strs Hsn Hrest]; subst.
    inversion Hrest; subst.
    destruct Hsn as (t & body & pre & rest & Ht & Hb & -> & _ & -> & _).
    cbn [sentinel title content] in Ht, Hb.
    injection Ht as <-. injection Hb as <-. reflexivity.
  - rewrite Havg. cbn [map sentinel content default from_option id keep_truthy].
    unfold id. destruct (extract_price message) as [v|]; [|reflexivity].
    cbn [truthy keep_truthy]. destruct (Z.eqb_spec v 0) as [->|Hv];
      cbn [negb]; [reflexivity|].
    cbn [length]. unfold sum. cbn [fold_left].
    rewrite Z.add_0_l. change (Z.of_nat 1) with 1. now rewrite Z.div_1_r.
Qed.

Lemma failed_price_query_witness :
  market_research scripted (lit "Foo") (start fixture_rate_limited)
    = (inr (report_of rate_limited_run), snd rate_limited_run)
  /\ competitors (report_of rate_limited_run) !! 0%nat
     = Some (mkSummary (lit "Acme") []
               [lit "Error: HTTP 429 Too Many Requests"] [] (Some 429))
  /\ [lit "Error: HTTP 429 Too Many Requests"]
     = [lit "Error: " ++ take 120 (lit "HTTP 429 Too Many Requests")]
  /\ Some 429 =
     match extract_price (lit "HTTP 429 Too Many Requests") with
     | Some v => if v =? 0 then None else Some v
     | None => None
     end.
Proof.
  assert (Hrun : market_research scripted (lit "Foo")
                   (start fixture_rate_limited)
                 = (inr (report_of rate_limited_run), snd rate_limited_run))
    by (vm_compute; reflexivity).
  assert (Hk : competitors (report_of rate_limited_run) !! 0%nat
               = Some (mkSummary (lit "Acme") []
                         [lit "Error: HTTP 429 Too Many Requests"] []
                         (Some 429)))
    by (vm_compute; reflexivity).
  split; [exact Hrun|]. split; [exact Hk|].
  exact (failed_price_query_message_is_read_as_price scripted (lit "Foo")
           (start fixture_rate_limited) _ _ 0%nat _
           (lit "HTTP 429 Too Many Requests") Hrun Hk
           ltac:(vm_compute; reflexivity)).
Defined.

(** X8. In a run that returns a report, an average price that is present
    lies between the smallest and the largest of the non-zero values
    extracted from that competitor's price results, of which there is at
    least one; in particular it is between 1 and 999999. *)
Theorem avg_price_between_extremes {W}
    (client_search : pystr -> Z -> W -> response * W)
    product_name (s : state W) r s' (k : nat) c a :
  market_research client_search product_name s = (inr r, s') ->
  competitors r !! k = Some c ->
  avg_price c = Some a ->
  exists rp,
    calls s' !! (length (calls s) + 3 * k + 2)%nat
      = Some (mkCall (price_query (name c)) 5 rp)
    /\ let kept := nonzero (extracted (results_of rp)) in
       kept <> []
       /\ (forall lo hi, Forall (fun v => lo <= v <= hi) kept -> lo <= a <= hi)
       /\ 1 <= a <= 999999.
Proof.
  intros Hrun Hk Ha.
  destruct (market_research_competitor _ _ _ _ _ Hrun k c Hk)
    as (rf & rp & rr & Hsum & _ & Hp & _).
  exists rp. split; [exact Hp|]. intros kept.
  destruct (summary_avg_price _ _ _ _ _ Hsum) as [_ Hmean].
  destruct (Hmean a Ha) as (Hdiv & _ & Hge). fold kept in Hdiv.
  assert (Hne : kept <> []).
  { intros E. rewrite E in Hdiv.
    change (sum [] / Z.of_nat (length (@nil Z))) with 0 in Hdiv. lia. }
  assert (Hlen : 0 < Z.of_nat (length kept)).
  { destruct kept; [contradiction | cbn [length]; lia]. }
  assert (Hbetween : forall lo hi,
             Forall (fun v => lo <= v <= hi) kept -> lo <= a <= hi).
  { intros lo hi Hb. pose proof (sum_bounds _ _ _ Hb) as [Hlo Hhi].
    rewrite Hdiv. split.
    - apply Z.div_le_lower_bound; lia.
    - apply Z.div_le_upper_bound; lia. }
  split; [assumption|]. split; [assumption|].
  apply Hbetween. apply nonzero_kept_positive.
Qed.

Lemma avg_price_between_witness :
  market_research scripted (lit "Foo") (start fixture)
    = (inr (report_of fixture_run), snd fixture_run)
  /\ exists rp,
       calls (snd fixture_run) !! 2%nat
         = Some (mkCall (price_query (lit "Acme Watch X")) 5 rp)
       /\ let kept := nonzero (extracted (results_of rp)) in
          kept <> []
          /\ (forall lo hi,
                Forall (fun v => lo <= v <= hi) kept -> lo <= 10000 <= hi)
          /\ 1 <= 10000 <= 999999.
Proof.
  assert (Hrun : market_research scripted (lit "Foo") (start fixture)
                 = (inr (report_of fixture_run), snd fixture_run))
    by (vm_compute; reflexivity).
  split; [exact Hrun|].
  exact (avg_price_between_extremes scripted (lit "Foo") (start fixture)
           _ _ 0%nat
           (mkSummary (lit "Acme Watch X")
              [lit "Acme specs: AMOLED display, GPS, 7 day battery"]
              [lit "Shop A: Rs. 12,500 only"; lit "Shop B: no price listed";
               lit "Shop C: PKR 7,501 (was 9,000)"]
              [lit "Forum: Great value"]
              (Some 10000))
           10000 Hrun ltac:(vm_compute; reflexivity) eq_refl).
Defined.

(** X9. In a run that returns a report, every competitor name is clean: it
    holds none of the characters [|], [-] and [:], it neither starts nor
    ends with whitespace, and [clean_name] leaves it as it is. *)
Theorem report_names_are_clean {W}
    (client_search : pystr -> Z -> W -> response * W)
    product_name (s : state W) r s' (k : nat) c :
  market_research client_search product_name s = (inr r, s') ->
  competitors r !! k = Some c ->
  Forall (fun ch => is_sep ch = false) (name c)
  /\ (forall ch rest, name c = ch :: rest -> is_space ch = false)
  /\ (forall rest ch, name c = rest ++ [ch] -> is_space ch = false)
  /\ clean_name (name c) = name c.
Proof.
  intros Hrun Hk.
  destruct (market_research_inv _ _ _ _ _ Hrun) as (log & Hn & _).
  destruct (Forall2_lookup_r _ _ _ _ _ Hn Hk) as (x & _ & t & _ & ->).
  split; [apply clean_name_no_separator|].
  split; [|split; [|apply clean_name_fixed_point]].
  - intros ch rest. rewrite clean_name_strip. apply strip_first.
  - intros rest ch. rewrite clean_name_strip. apply strip_last.
Qed.

Lemma report_names_witness :
  market_research scripted (lit "Foo") (start fixture)
    = (inr (report_of fixture_run), snd fixture_run)
  /\ map name (competitors (report_of fixture_run))
     = [lit "Acme Watch X"; lit "Acme Watch X"; lit "Zenith Band"]
  /\ Forall (fun ch => is_sep ch = false) (lit "Zenith Band")
  /\ (forall ch rest, lit "Zenith Band" = ch :: rest -> is_space ch = false)
  /\ (forall rest ch, lit "Zenith Band" = rest ++ [ch] -> is_space ch = false)
  /\ clean_name (lit "Zenith Band") = lit "Zenith Band".
Proof.
  assert (Hrun : market_research scripted (lit "Foo") (start fixture)
                 = (inr (report_of fixture_run), snd fixture_run))
    by (vm_compute; reflexivity).
  split; [exact Hrun|]. split; [vm_compute; reflexivity|].
  exact (report_names_are_clean scripted (lit "Foo") (start fixture)
           _ _ 2%nat (mkSummary (lit "Zenith Band") [] [] [] None)
           Hrun ltac:(vm_compute; reflexivity)).
Defined.

(* ===================================================================== *)
(** ** The dashboard *)

Lemma write_items_map (body : list widget) (xs : list pystr) :
  write_items body xs = body ++ map item xs.
Proof.
  unfold write_items, append, item. revert body.
  induction xs as [|x r IH]; intros body; cbn [fold_left map].
  - now rewrite app_nil_r.
  - rewrite IH, <- app_assoc. reflexivity.
Qed.

Lemma expander_body_panel (c : CompetitorSummary) (d : list (pystr * Z)) :
  expander_body c d = (panel c, record_price d c).
Proof.
  unfold expander_body, panel, captions, record_price, truthy, append.
  rewrite !write_items_map.
  destruct (avg_price c) as [v|]; [destruct (v =? 0)|];
    cbn [negb fst snd app]; rewrite <- ?app_assoc; reflexivity.
Qed.

Lemma show_competitors_fold (cs : list CompetitorSummary) :
  forall (page : list widget) (d : list (pystr * Z)),
    fold_left show_competitor cs (page, d)
    = (page ++ map expander_of cs, fold_left record_price cs d).
Proof.
  induction cs as [|c r IH]; intros page d; cbn [fold_left map].
  - now rewrite app_nil_r.
  - unfold show_competitor at 2. rewrite expander_body_panel.
    cbn [fst snd]. unfold append. rewrite IH, <- app_assoc. reflexivity.
Qed.

(** The page: the success line, one expander per competitor in the order
    of the report, the price chart when the dictionary is not empty, the
    sentiment chart. *)
Lemma display_layout (report : Report) (product_name : pystr) :
  display report product_name
  = [Success ([0x2705%N] ++ lit " Market Research Completed for "
                ++ product_name)]
      ++ map expander_of (competitors report)
      ++ bar_chart (fold_left record_price (competitors report) [])
      ++ [ Subheader ([0x1F9ED%N]
                        ++ lit " Customer Sentiment Overview (Example Data)");
           Pyplot sentiment_chart ].
Proof.
  unfold display. rewrite show_competitors_fold. cbn [fst snd].
  unfold append, bar_chart.
  destruct (fold_left record_price (competitors report) []);
    rewrite <- ?app_assoc; reflexivity.
Qed.

Lemma pystr_eqb_eq (a b : pystr) : pystr_eqb a b = true <-> a = b.
Proof.
  revert b. induction a as [|x a IH]; intros [|y b]; simpl;
    try (split; [discriminate | discriminate]); [tauto|].
  rewrite andb_true_iff, IH. unfold char_eqb. rewrite N.eqb_eq.
  split; [intros [-> ->]; reflexivity | intros H; injection H; auto].
Qed.

Lemma dict_set_elem (d : list (pystr * Z)) k v : forall k' v',
  NoDup (map fst d) ->
  ((k', v') ∈ dict_set d k v
   <-> (k' = k /\ v' = v) \/ (k' <> k /\ (k', v') ∈ d)).
Proof.
  induction d as [|[k0 v0] r IH]; intros k' v' Hnd.
  - cbn [dict_set]. rewrite list_elem_of_singleton. split.
    + intros H; injection H as -> ->. now left.
    + intros [[-> ->]|[_ H]]; [reflexivity|]. now apply elem_of_nil in H.
  - cbn [map fst] in Hnd. apply NoDup_cons in Hnd as [Hk0 Hnd].
    cbn [dict_set]. destruct (pystr_eqb k0 k) eqn:E.
    + apply pystr_eqb_eq in E. subst k0. rewrite !elem_of_cons. split.
      * intros [H|H]; [injection H as -> ->; now left|].
        right. split; [|now right]. intros ->. apply Hk0.
        apply list_elem_of_fmap. now exists (k, v').
      * intros [[-> ->]|[Hne [H|H]]]; [now left | | now right].
        injection H as -> _. contradiction.
    + assert (Hne : k0 <> k).
      { intros ->. assert (pystr_eqb k k = true) by now apply pystr_eqb_eq.
        congruence. }
      rewrite !elem_of_cons, (IH k' v' Hnd). split.
      * intros [H|[H|[H1 H2]]]; [injection H as -> ->| |]; auto.
      * intros [[-> ->]|[H1 [H|H]]]; auto.
Qed.

Lemma dict_set_keys (d : list (pystr * Z)) k v :
  NoDup (map fst d) ->
  NoDup (map fst (dict_set d k v))
  /\ (length d <= length (dict_set d k v) <= S (length d))%nat
  /\ dict_set d k v <> [].
Proof.
  induction d as [|[k0 v0] r IH]; intros Hnd.
  - cbn. split; [|split; [lia | discriminate]].
    apply NoDup_singleton.
  - cbn [map fst] in Hnd. apply NoDup_cons in Hnd as [Hk0 Hnd].
    cbn [dict_set]. destruct (pystr_eqb k0 k) eqn:E.
    + cbn [map fst length]. split; [|split; [lia | discriminate]].
      apply NoDup_cons. auto.
    + destruct (IH Hnd) as (IH1 & IH2 & _).
      cbn [map fst length]. split; [|split; [lia | discriminate]].
      apply NoDup_cons. split; [|assumption].
      intros Hin. apply list_elem_of_fmap in Hin as ([k1 v1] & Hk & Hin).
      cbn in Hk. subst k1.
      apply (dict_set_elem r k v k0 v1 Hnd) in Hin as [[-> _]|[_ Hin]].
      * assert (pystr_eqb k k = true) by now apply pystr_eqb_eq. congruence.
      * apply Hk0. apply list_elem_of_fmap. now exists (k0, v1).
Qed.

Lemma wins_snoc (cs : list CompetitorSummary) c k v :
  wins (cs ++ [c]) k v
  <-> (name c = k /\ avg_price c = Some v /\ v <> 0)
      \/ (wins cs k v /\ (name c = k -> priced c = false)).
Proof.
  unfold wins. split.
  - intros (before & c1 & after & Hsplit & Hn & Hv & Hnz & Hafter).
    induction after as [|c' after' _] using rev_ind.
    + apply (app_inj_tail cs before c c1) in Hsplit as [_ ->]. now left.
    + rewrite app_comm_cons, app_assoc in Hsplit.
      apply app_inj_tail in Hsplit as [-> ->].
      apply Forall_app in Hafter as [Hafter Hlast].
      right. split; [|now inversion Hlast].
      exists before, c1, after'. auto.
  - intros [(Hn & Hv & Hnz)|[(before & c1 & after & -> & Hn & Hv & Hnz & Hafter) Hc]].
    + exists cs, c, []. auto.
    + exists before, c1, (after ++ [c]).
      rewrite <- app_assoc. cbn [app]. repeat split; try assumption.
      apply Forall_app. split; [assumption | now constructor].
Qed.

Lemma priced_iff (c : CompetitorSummary) :
  priced c = true <-> exists v, avg_price c = Some v /\ v <> 0.
Proof.
  unfold priced, truthy. destruct (avg_price c) as [v|].
  - rewrite negb_true_iff, Z.eqb_neq. split; [eauto|].
    intros (v' & H & Hv). now injection H as ->.
  - split; [discriminate | intros (v & H & _); discriminate].
Qed.

Lemma record_price_priced d c v :
  avg_price c = Some v -> v <> 0 ->
  record_price d c = dict_set d (name c) v.
Proof.
  intros Hv Hnz. unfold record_price. rewrite Hv.
  now destruct (Z.eqb_spec v 0).
Qed.

Lemma record_price_unpriced d c :
  priced c = false -> record_price d c = d.
Proof.
  unfold priced, truthy, record_price.
  destruct (avg_price c) as [v|]; [|reflexivity].
  now destruct (v =? 0).
Qed.

(** The dictionary after the loop: its keys are distinct, it has an entry
    exactly for the names that have a price, with the price of the last
    competitor of that name that has one. *)
Lemma avg_prices_after_loop (cs : list CompetitorSummary) :
  let d := fold_left record_price cs [] in
  NoDup (map fst d)
  /\ (length d <= length cs)%nat
  /\ (d <> [] <-> Exists (fun c => priced c = true) cs)
  /\ (forall k v, (k, v) ∈ d <-> wins cs k v).
Proof.
  induction cs as [|c cs IH] using rev_ind.
  - cbn. split; [apply NoDup_nil_2|]. split; [lia|]. split.
    + split; [contradiction | intros H; inversion H].
    + intros k v. split; [intros H; now apply elem_of_nil in H|].
      intros (before & c & after & H & _). now destruct before.
  - destruct IH as (Hnd & Hlen & Hne & Hin).
    cbn zeta. rewrite fold_left_app. cbn [fold_left].
    set (d := fold_left record_price cs []) in *.
    rewrite length_app. cbn [length].
    destruct (priced c) eqn:Ep.
    + apply priced_iff in Ep as Hp. destruct Hp as (v0 & Hv0 & Hnz0).
      rewrite (record_price_priced d c v0 Hv0 Hnz0).
      destruct (dict_set_keys d (name c) v0 Hnd) as (Hnd' & Hlen' & Hne').
      split; [assumption|]. split; [lia|]. split.
      * split; [intros _ | intros _; assumption].
        apply Exists_app. right. now constructor.
      * intros k v. rewrite (dict_set_elem d (name c) v0 k v Hnd).
        rewrite wins_snoc, Hin, Hv0. split.
        -- intros [[-> ->]|[Hk Hw]]; [left; auto|].
           right. split; [assumption|]. intros E. now symmetry in E.
        -- intros [(E & Hv & _)|[Hw Hk]].
           ++ left. injection Hv as ->. auto.
           ++ right. split; [|assumption]. intros ->.
              specialize (Hk eq_refl). congruence.
    + rewrite (record_price_unpriced d c Ep).
      split; [assumption|]. split; [lia|]. split.
      * rewrite Hne, Exists_app. split; [auto|].
        intros [H|H]; [assumption|].
        inversion H as [? ? Hc|? ? Hc]; [congruence | inversion Hc].
      * intros k v. rewrite wins_snoc, Hin. split; [auto|].
        intros [(_ & Hv & Hnz)|[Hw _]]; [|assumption].
        assert (priced c = true) by (apply priced_iff; eauto). congruence.
Qed.

Lemma bar_chart_elem (d : list (pystr * Z)) xs hs yl t :
  Pyplot (BarChart xs hs yl t) ∈ bar_chart d ->
  d <> [] /\ xs = map fst d /\ hs = map snd d.
Proof.
  unfold bar_chart. destruct d as [|e r]; [intros H; now apply elem_of_nil in H|].
  rewrite !elem_of_cons. intros [H|[H|H]]; [discriminate| |now apply elem_of_nil in H].
  injection H as -> -> _ _. split; [discriminate | auto].
Qed.

Lemma display_bar_chart report product_name xs hs yl t :
  Pyplot (BarChart xs hs yl t) ∈ display report product_name
  <-> Pyplot (BarChart xs hs yl t)
        ∈ bar_chart (fold_left record_price (competitors report) []).
Proof.
  rewrite display_layout, !elem_of_app. split.
  - intros [H|[H|[H|H]]]; [| |assumption|].
    + apply list_elem_of_singleton in H. discriminate.
    + apply list_elem_of_fmap in H as (c & H & _). discriminate.
    + rewrite !elem_of_cons in H.
      destruct H as [H|[H|H]]; [discriminate | discriminate|].
      now apply elem_of_nil in H.
  - auto.
Qed.

(** X10. The price chart of the dashboard is there exactly when some
    competitor has an average price that is present and not zero.  Its
    bars have distinct names, so there are at most as many as competitors;
    there is a bar for a name exactly when a competitor of that name has
    such a price, and its height is the price of the last such competitor
    in the report: competitors that share a name share one bar. *)
Theorem price_chart_has_one_bar_per_priced_name
    (report : Report) (product_name : pystr) :
  let cs := competitors report in
  ((exists xs hs yl t,
      Pyplot (BarChart xs hs yl t) ∈ display report product_name)
   <-> Exists (fun c => priced c = true) cs)
  /\ forall xs hs yl t,
       Pyplot (BarChart xs hs yl t) ∈ display report product_name ->
       NoDup xs
       /\ length xs = length hs
       /\ (length xs <= length cs)%nat
       /\ forall k v, (k, v) ∈ zip xs hs <-> wins cs k v.
Proof.
  intros cs.
  destruct (avg_prices_after_loop cs) as (Hnd & Hlen & Hne & Hin).
  set (d := fold_left record_price cs []) in *. split.
  - split.
    + intros (xs & hs & yl & t & H). apply display_bar_chart in H.
      apply bar_chart_elem in H as [H _]. now apply Hne.
    + intros H. apply Hne in H.
      exists (map fst d), (map snd d), (lit "Price (PKR)"),
             (lit "Average Price Comparison of Competitors").
      apply display_bar_chart. fold cs d. unfold bar_chart.
      destruct d; [contradiction|]. apply elem_of_cons. right.
      apply list_elem_of_here.
  - intros xs hs yl t H. apply display_bar_chart in H.
    apply bar_chart_elem in H as (_ & -> & ->). fold cs d.
    split; [assumption|]. rewrite !length_map.
    split; [reflexivity|]. split; [assumption|].
    intros k v. change (zip (map fst d) (map snd d)) with (zip (d.*1) (d.*2)).
    rewrite zip_fst_snd. apply Hin.
Qed.

Lemma price_chart_witness :
  Pyplot (BarChart [lit "Acme"] [200] (lit "Price (PKR)")
            (lit "Average Price Comparison of Competitors"))
    ∈ display report_shared_name (lit "Foo")
  /\ NoDup [lit "Acme"]
  /\ length [lit "Acme"] = length [200]
  /\ (length [lit "Acme"] <= length (competitors report_shared_name))%nat
  /\ forall k v,
       (k, v) ∈ zip [lit "Acme"] [200]
       <-> wins (competitors report_shared_name) k v.
Proof.
  assert (H : Pyplot (BarChart [lit "Acme"] [200] (lit "Price (PKR)")
                        (lit "Average Price Comparison of Competitors"))
                ∈ display report_shared_name (lit "Foo")).
  { apply list_elem_of_In. vm_compute. do 5 right. left. reflexivity. }
  split; [exact H|].
  exact (proj2 (price_chart_has_one_bar_per_priced_name report_shared_name
                  (lit "Foo")) _ _ _ _ H).
Defined.

(* ===================================================================== *)
(** ** The dashboard and the document *)

Lemma caption_texts_items (xs : list pystr) :
  caption_texts (map item xs) = [].
Proof. induction xs as [|x r IH]; [reflexivity | exact IH]. Qed.

Lemma item_texts_items (xs : list pystr) : item_texts (map item xs) = xs.
Proof.
  induction xs as [|x r IH]; [reflexivity|].
  cbn [map]. unfold item_texts in *. cbn [flat_map].
  rewrite IH. reflexivity.
Qed.

Lemma price_line_texts_bullets (xs : list pystr) :
  price_line_texts (map bullet xs) = [].
Proof. induction xs as [|x r IH]; [reflexivity | exact IH]. Qed.

Lemma bullet_texts_bullets (xs : list pystr) :
  bullet_texts (map bullet xs) = xs.
Proof.
  induction xs as [|x r IH]; [reflexivity|].
  cbn [map]. unfold bullet_texts in *. cbn [flat_map].
  rewrite IH. reflexivity.
Qed.


(* ===================================================================== *)
(** ** The download *)

Lemma replace_char_gone (old new : char) (s : pystr) :
  new <> old -> Forall (fun c => c <> old) (replace_char old new s).
Proof.
  intros Hne. unfold replace_char. induction s as [|c r IH]; cbn [map];
    constructor; [|exact IH].
  unfold char_eqb. destruct (N.eqb_spec c old); assumption.
Qed.

Lemma replace_char_id (old new : char) (s : pystr) :
  Forall (fun c => c <> old) s -> replace_char old new s = s.
Proof.
  unfold replace_char. induction 1 as [|c r Hc _ IH]; cbn [map];
    [reflexivity|].
  unfold char_eqb at 1. destruct (N.eqb_spec c old); [contradiction|].
  now rewrite IH.
Qed.

(** X12. The name of the downloaded file holds no space: it is the product
    name with every space turned into an underscore, followed by
    ["_Market_Report.pdf"], so it is 18 characters longer than the product
    name.  A product name without spaces is kept as it is, and two product
    names that differ only in spaces against underscores get the same file
    name. *)
Theorem download_file_name_has_no_space (product_name : pystr) :
  Forall (fun c => c <> 0x20%N) (download_file_name product_name)
  /\ length (download_file_name product_name)
     = (length product_name + 18)%nat
  /\ (Forall (fun c => c <> 0x20%N) product_name ->
      download_file_name product_name
      = product_name ++ lit "_Market_Report.pdf")
  /\ download_file_name (replace_char 0x20%N 0x5F%N product_name)
     = download_file_name product_name.
Proof.
  assert (Hgone : Forall (fun c => c <> 0x20%N)
                         (replace_char 0x20%N 0x5F%N product_name))
    by (apply replace_char_gone; discriminate).
  unfold download_file_name. split; [|split; [|split]].
  - apply Forall_app. split; [exact Hgone|].
    repeat constructor; discriminate.
  - rewrite length_app. unfold replace_char. rewrite length_map. reflexivity.
  - intros H. now rewrite replace_char_id.
  - now rewrite (replace_char_id _ _ _ Hgone).
Qed.

Lemma download_file_name_witness :
  Forall (fun c => c <> 0x20%N) (lit "Nexus_Smartwatch_Pro_2")
  /\ download_file_name (lit "Nexus Smartwatch Pro 2")
     = lit "Nexus_Smartwatch_Pro_2_Market_Report.pdf"
  /\ download_file_name (lit "Nexus_Smartwatch_Pro_2")
     = lit "Nexus_Smartwatch_Pro_2" ++ lit "_Market_Report.pdf".
Proof.
  assert (H : Forall (fun c => c <> 0x20%N) (lit "Nexus_Smartwatch_Pro_2"))
    by (repeat constructor; discriminate).
  split; [exact H|]. split; [reflexivity|].
  exact (proj1 (proj2 (proj2 (download_file_name_has_no_space
                                (lit "Nexus_Smartwatch_Pro_2")))) H).
Defined.

(* ===================================================================== *)
(** ** A press of the button *)


